(** * The pre-push quality gate, [tools/pre-push-check.py]

    A shallow embedding of the hook script: a straight-line Python program
    that consults two environment variables, runs the test suite as a child
    process, reads [coverage/coverage-summary.json], compares four coverage
    percentages with fixed thresholds, tries to upload [coverage/lcov.info]
    and leaves through [sys.exit].

    - [PyFloat]: Python floats (IEEE 754 binary64) with the builtin
      conversions from [int] and [str] and the comparison with an [int].
    - [Python]: values as [json.load] returns them, exceptions, the
      builtins [dict.get], [==], [float], [<], and a small monad for code
      that prints, calls the operating system, raises and exits.
    - [Gate]: the script, stage by stage, in the order of the source.
    - [Examples]: concrete environments to run it in.

    What the operating system answers (the environment, the status of a
    child process or the exception of a failed launch, whether a file
    exists, what decoding it gives) is a [world] record that the script
    reads.  Each question is asked at most once in a run, so one answer per
    question is enough.  What the script does to the outside is a trace of
    [event]s.  [print] is taken to succeed, a child process to end, and no
    signal to interrupt the run. *)

From Stdlib Require Import ZArith String Ascii List Lia QArith Qpower.
From Stdlib Require Import Floats.SpecFloat.
From stdpp Require Import base strings gmap list.

Set Warnings "-register-all".
Local Open Scope Z_scope.

(** ** Python floats

    A Python [float] is an IEEE 754 binary64 value.  The data is the
    Standard Library's [spec_float]; rounding is its [binary_normalize] and
    [SFdiv] at precision 53 and maximal exponent 1024 (round to nearest,
    ties to even). *)
Module PyFloat.

Definition float : Type := spec_float.

Definition prec : Z := 53.
Definition emax : Z := 1024.

Definition is_infinity (f : float) : bool :=
  match f with S754_infinity _ => true | _ => false end.

Definition is_nan (f : float) : bool :=
  match f with S754_nan => true | _ => false end.

(** [float(n)] for an [int] n: the nearest double, and [OverflowError]
    (here [None]) when n rounds beyond the largest finite double. *)
Definition of_Z (n : Z) : option float :=
  let f := binary_normalize prec emax n 0 false in
  if is_infinity f then None else Some f.

(** The order between a float and an [int] is the order of the numbers
    they denote: CPython's [float_richcompare] compares exactly, without
    converting the integer.  No comparison holds of a NaN. *)
Definition compare_Z (f : float) (z : Z) : option comparison :=
  match f with
  | S754_nan => None
  | S754_infinity s => Some (if s then Lt else Gt)
  | S754_zero _ => Some (0 ?= z)
  | S754_finite s m e =>
      let sm := cond_Zopp s (Zpos m) in
      Some (if 0 <=? e then sm * 2 ^ e ?= z else sm ?= z * 2 ^ (- e))
  end.

Definition ltb_Z (f : float) (z : Z) : bool :=
  match compare_Z f z with Some Lt => true | _ => false end.

Definition leb_Z_l (z : Z) (f : float) : bool :=
  match compare_Z f z with Some (Gt | Eq) => true | _ => false end.

(** The rational number a zero or finite float denotes. *)
Definition to_Q (f : float) : option Q :=
  match f with
  | S754_zero _ => Some 0%Q
  | S754_finite s m e =>
      Some (inject_Z (cond_Zopp s (Zpos m)) * Qpower 2 e)%Q
  | _ => None
  end.

(** *** [float(s)] for a [str] s

    The accepted language is the one of the language reference: optional
    surrounding whitespace, an optional sign, then [inf], [infinity] or
    [nan] in any letter case, or a decimal numeral with an optional
    fraction and exponent whose digit groups may be separated by single
    underscores.  A [str] is modelled with characters below 256; of the
    characters above 127 only the two spaces U+0085 and U+00A0 are
    accepted, as whitespace. *)

Definition code (c : ascii) : N := N_of_ascii c.

Definition is_space (c : ascii) : bool :=
  ((9 <=? code c) && (code c <=? 13) || (code c =? 32))%N.

Definition is_digit (c : ascii) : bool :=
  ((48 <=? code c) && (code c <=? 57))%N.

Definition digit_value (c : ascii) : Z := Z.of_N (code c) - 48.

Definition lower (c : ascii) : ascii :=
  if ((65 <=? code c) && (code c <=? 90))%N
  then ascii_of_N (code c + 32) else c.

Definition fold_space (c : ascii) : ascii :=
  if ((code c =? 133) || (code c =? 160))%N then " "%char else c.

Fixpoint lstrip (s : list ascii) : list ascii :=
  match s with
  | c :: s' => if is_space c then lstrip s' else s
  | [] => []
  end.

Definition strip (s : list ascii) : list ascii :=
  rev (lstrip (rev (lstrip s))).

(** Underscores are allowed only between two digits, and are dropped. *)
Fixpoint drop_underscores (prev : ascii) (s : list ascii)
  : option (list ascii) :=
  match s with
  | [] => if Ascii.eqb prev "_" then None else Some []
  | c :: s' =>
      if Ascii.eqb c "_" then
        if is_digit prev then drop_underscores c s' else None
      else if Ascii.eqb prev "_" && negb (is_digit c) then None
      else option_map (cons c) (drop_underscores c s')
  end.

(** [digits acc n s]: the longest run of digits at the head of [s],
    appended to the numeral [acc]; [n] counts them. *)
Fixpoint digits (acc n : Z) (s : list ascii) : Z * Z * list ascii :=
  match s with
  | c :: s' =>
      if is_digit c then digits (10 * acc + digit_value c) (n + 1) s'
      else (acc, n, s)
  | [] => (acc, n, [])
  end.

Definition split_sign (s : list ascii) : bool * list ascii :=
  match s with
  | c :: s' =>
      if Ascii.eqb c "-" then (true, s')
      else if Ascii.eqb c "+" then (false, s')
      else (false, s)
  | [] => (false, [])
  end.

(** The exponent part, [e] or [E], an optional sign and at least one
    digit; [None] when what follows the mantissa is anything else. *)
Definition exponent (s : list ascii) : option Z :=
  match s with
  | [] => Some 0
  | c :: s' =>
      if Ascii.eqb (lower c) "e" then
        let '(neg, s'') := split_sign s' in
        match digits 0 0 s'' with
        | (x, n, []) => if 0 <? n then Some (cond_Zopp neg x) else None
        | _ => None
        end
      else None
  end.

(** A decimal numeral as a mantissa [M] and a power of ten [E]: the text
    denotes [M * 10 ^ E]. *)
Definition decimal (s : list ascii) : option (Z * Z) :=
  let '(ip, ni, r1) := digits 0 0 s in
  let '(m, nf, r2) :=
    match r1 with
    | c :: r => if Ascii.eqb c "." then digits ip 0 r else (ip, 0, r1)
    | [] => (ip, 0, r1)
    end in
  if 0 <? ni + nf then
    match exponent r2 with
    | Some x => Some (m, x - nf)
    | None => None
    end
  else None.

(** The double nearest to [M * 10 ^ E], for [0 <= M]; overflow gives an
    infinity and underflow a zero, with the sign kept. *)
Definition of_decimal (neg : bool) (M E : Z) : float :=
  match M with
  | Zpos m =>
      if 0 <=? E
      then binary_normalize prec emax (cond_Zopp neg (M * 10 ^ E)) 0 neg
      else SFdiv prec emax (S754_finite neg m 0)
                           (S754_finite false (Z.to_pos (10 ^ (- E))) 0)
  | _ => S754_zero neg
  end.

Definition special (s : list ascii) : option (bool -> float) :=
  let t := string_of_list_ascii (map lower s) in
  if String.eqb t "inf" || String.eqb t "infinity"
  then Some S754_infinity
  else if String.eqb t "nan" then Some (fun _ => S754_nan)
  else None.

(** [float(s)]; [None] stands for the [ValueError] it raises. *)
Definition of_string (s : string) : option float :=
  match strip (map fold_space (list_ascii_of_string s)) with
  | [] => None
  | t =>
      match drop_underscores "000"%char t with
      | None => None
      | Some u =>
          let '(neg, body) := split_sign u in
          match decimal body with
          | Some (M, E) => Some (of_decimal neg M E)
          | None =>
              match special body with
              | Some f => Some (f neg)
              | None => None
              end
          end
      end
  end.

End PyFloat.

(** ** Python values, exceptions and the builtins the script uses *)
Module Python.

Import PyFloat.

(** The exceptions that can travel through the script.  All of them are
    subclasses of [Exception]; [OtherError] stands for whatever else the
    operating system or the JSON decoder raises ([FileNotFoundError],
    [JSONDecodeError], ...), with its class name and message. *)
Inductive exn : Type :=
| ValueError
| TypeError
| OverflowError
| AttributeError
| OtherError (cls msg : string).

(** What [json.load] can return. A [dict] keeps its items as a list of
    pairs and a key is looked up from the front. *)
Inductive value : Type :=
| VNone
| VBool (b : bool)
| VInt (n : Z)
| VFloat (f : float)
| VStr (s : string)
| VList (l : list value)
| VDict (items : list (string * value)).

(** The value of a coverage variable of the script: the [int] literal 0
    or a [float] made by [safe_float]. *)
Inductive num : Type :=
| Int (n : Z)
| Float (f : float).

(** Pure code that may raise. *)
Inductive result (A : Type) : Type :=
| Ok (a : A)
| Err (e : exn).
Arguments Ok {A} a.
Arguments Err {A} e.

#[global] Instance result_ret : MRet result := @Ok.
#[global] Instance result_bind : MBind result :=
  λ A B f r, match r with Ok a => f a | Err e => Err e end.

(** [try: body  except classes: handler], for a handler that does not
    look at the exception. *)
Definition try_except_in {A} (body : result A) (classes : exn → bool)
    (handler : result A) : result A :=
  match body with
  | Ok a => Ok a
  | Err e => if classes e then handler else Err e
  end.

Fixpoint assoc (k : string) (items : list (string * value))
  : option value :=
  match items with
  | [] => None
  | (k', v) :: rest => if String.eqb k k' then Some v else assoc k rest
  end.

(** [d.get(key, default)]: only a [dict] has the attribute [get]. *)
Definition get (d : value) (key : string) (default : value)
  : result value :=
  match d with
  | VDict items =>
      Ok (match assoc key items with Some v => v | None => default end)
  | _ => Err AttributeError
  end.

(** [list(d.keys())] *)
Definition keys (d : value) : result value :=
  match d with
  | VDict items => Ok (VList (map (λ kv, VStr (fst kv)) items))
  | _ => Err AttributeError
  end.

(** [v == s] for a [str] literal s. *)
Definition eq_str (v : value) (s : string) : bool :=
  match v with
  | VStr t => String.eqb t s
  | _ => false
  end.

(** The builtin [float(v)]. *)
Definition float_of (v : value) : result float :=
  match v with
  | VNone => Err TypeError
  | VBool b =>
      Ok (if b then S754_finite false 4503599627370496 (-52)
          else S754_zero false)
  | VInt n =>
      match of_Z n with Some f => Ok f | None => Err OverflowError end
  | VFloat f => Ok f
  | VStr s =>
      match of_string s with Some f => Ok f | None => Err ValueError end
  | VList _ | VDict _ => Err TypeError
  end.

(** [x < t] for a coverage variable x and an [int] t. *)
Definition lt (x : num) (t : Z) : bool :=
  match x with
  | Int n => n <? t
  | Float f => ltb_Z f t
  end.

(** [t <= x], which is not the negation of [x < t] when x is a NaN. *)
Definition ge (x : num) (t : Z) : bool :=
  match x with
  | Int n => t <=? n
  | Float f => leb_Z_l t f
  end.

Definition num_is_nan (x : num) : bool :=
  match x with
  | Int _ => false
  | Float f => is_nan f
  end.

(** *** Effects

    A run leaves a trace of events and ends in one of three ways. *)

(** One piece of a printed line: literal text (UTF-8) or a formatted
    field of an f-string. *)
Inductive piece : Type :=
| Text (s : string)
| Num (x : num)
| Val (v : value)
| Exc (e : exn).

Inductive event : Type :=
| EPrint (line : list piece)
| ERun (args : list string)
| EExists (path : string)
| EOpen (path : string).

Inductive outcome (A : Type) : Type :=
| Ret (a : A)
| Raise (e : exn)
| Exit (code : Z).
Arguments Ret {A} a.
Arguments Raise {A} e.
Arguments Exit {A} code.

Definition script (A : Type) : Type := list event * outcome A.

#[global] Instance script_ret : MRet script := λ A a, ([], Ret a).
#[global] Instance script_bind : MBind script :=
  λ A B f c,
    match c with
    | (t, Ret a) => let '(t', o) := f a in (t ++ t', o)
    | (t, Raise e) => (t, Raise e)
    | (t, Exit n) => (t, Exit n)
    end.

Definition of_result {A} (r : result A) : outcome A :=
  match r with Ok a => Ret a | Err e => Raise e end.

(** Pure code run inside the script. *)
Definition lift {A} (r : result A) : script A := ([], of_result r).

(** [try: body  except Exception as e: handler]; [SystemExit] is not an
    [Exception] and passes through. *)
Definition try_except {A} (body : script A) (handler : exn → script A)
  : script A :=
  match body with
  | (t, Raise e) => let '(t', o) := handler e in (t ++ t', o)
  | _ => body
  end.

Definition print (line : list piece) : script unit := ([EPrint line], Ret tt).

Definition sys_exit {A} (code : Z) : script A := ([], Exit code).

Definition when (b : bool) (c : script unit) : script unit :=
  if b then c else mret tt.

(** The status the process ends with: the argument of [sys.exit], 1 for
    an uncaught exception, 0 when the module runs to its end. *)
Definition exit_status {A} (o : outcome A) : Z :=
  match o with
  | Exit n => n
  | Raise _ => 1
  | Ret _ => 0
  end.

(** What the operating system answers during a run. [run] is
    [subprocess.run]: the return code of the completed child, or the
    exception raised when it cannot be launched. [load] is
    [open(path, 'r')] followed by [json.load]. *)
Record world : Type := {
  environ : gmap string string;
  run : list string → result Z;
  path_exists : string → bool;
  load : string → result value;
}.

Section Calls.
Variable w : world.

(** [os.environ.get(name)] *)
Definition environ_get (name : string) : option string :=
  environ w !! name.

Definition subprocess_run (args : list string) : script Z :=
  ([ERun args], of_result (run w args)).

Definition os_path_exists (path : string) : script bool :=
  ([EExists path], Ret (path_exists w path)).

Definition json_load_open (path : string) : script value :=
  ([EOpen path], of_result (load w path)).
End Calls.

End Python.

(** ** The script *)
Module Gate.

Import PyFloat Python.
Local Open Scope string_scope.

(** [DEBUG = False] *)
Definition DEBUG : bool := false.

Definition LINES_THRESHOLD : Z := 70.
Definition STATEMENTS_THRESHOLD : Z := 70.
Definition FUNCTIONS_THRESHOLD : Z := 65.
Definition BRANCHES_THRESHOLD : Z := 60.

Definition summary_path : string := "coverage/coverage-summary.json".
Definition lcov_path : string := "coverage/lcov.info".
Definition test_command : list string := ["pnpm"; "run"; "test:coverage"].
Definition upload_command : list string := ["pnpm"; "run"; "coverage:upload"].

(** A text that starts with a newline, as in [print("\n...")]. *)
Definition nl (s : string) : string := String "010" s.

(** [safe_float(value, default=0.0)], lines 66-72. *)
Definition safe_float (value : value) (default : float) : result float :=
  try_except_in
    (if eq_str value "Unknown" then Ok default else float_of value)
    (λ e, match e with ValueError | TypeError => true | _ => false end)
    (Ok default).

Definition default_float : float := S754_zero false.

Section Stages.
Variable w : world.

(** Lines 12-14. *)
Definition skip_requested : bool :=
  bool_decide (environ_get w "SKIP_HOOKS" = Some "1")
  || bool_decide (environ_get w "SKIP_PRE_PUSH" = Some "1").

Definition skip_check : script unit :=
  if skip_requested then
    print [Text "🧊 Skipping ICE-WEBAPP pre-push quality gates (SKIP_HOOKS=1 or SKIP_PRE_PUSH=1)"];;
    sys_exit 0
  else mret tt.

(** Lines 20-28. *)
Definition run_tests : script unit :=
  try_except
    (returncode ← subprocess_run w test_command;
     if negb (returncode =? 0)%Z then
       print [Text "❌ Tests failed! Fix tests before pushing or use git push --no-verify to bypass."];;
       print [Text "   Or set environment variable: SKIP_PRE_PUSH=1 git push"];;
       sys_exit 1
     else mret tt)
    (λ e, print [Text "❌ Error running tests: "; Exc e];;
          sys_exit 1).

(** Lines 42-82: the body of the [try]. *)
Definition parse_summary : script (num * num * num * num) :=
  coverage_data ← json_load_open w summary_path;
  when DEBUG (
    print [Text "Debug: Coverage data loaded"];;
    ks ← lift (keys coverage_data);
    print [Text "Debug: Keys in coverage_data: "; Val ks]);;
  total_coverage ← lift (get coverage_data "total" (VDict []));
  when DEBUG (print [Text "Debug: total_coverage: "; Val total_coverage]);;
  lines_pct ← lift (get total_coverage "lines" (VDict []) ≫= λ d, get d "pct" VNone);
  statements_pct ← lift (get total_coverage "statements" (VDict []) ≫= λ d, get d "pct" VNone);
  functions_pct ← lift (get total_coverage "functions" (VDict []) ≫= λ d, get d "pct" VNone);
  branches_pct ← lift (get total_coverage "branches" (VDict []) ≫= λ d, get d "pct" VNone);
  when DEBUG (
    print [Text "Debug: Raw values - lines_pct="; Val lines_pct;
           Text ", statements_pct="; Val statements_pct];;
    print [Text "Debug: Raw values - functions_pct="; Val functions_pct;
           Text ", branches_pct="; Val branches_pct]);;
  lines_cov ← lift (safe_float lines_pct default_float);
  statements_cov ← lift (safe_float statements_pct default_float);
  functions_cov ← lift (safe_float functions_pct default_float);
  branches_cov ← lift (safe_float branches_pct default_float);
  when DEBUG (
    print [Text "Debug: Converted values - lines_cov="; Num (Float lines_cov);
           Text ", statements_cov="; Num (Float statements_cov)];;
    print [Text "Debug: Converted values - functions_cov="; Num (Float functions_cov);
           Text ", branches_cov="; Num (Float branches_cov)]);;
  mret (Float lines_cov, Float statements_cov,
        Float functions_cov, Float branches_cov).

Definition all_zero : num * num * num * num := (Int 0, Int 0, Int 0, Int 0).

(** Lines 40-91. *)
Definition read_coverage : script (num * num * num * num) :=
  present ← os_path_exists w summary_path;
  if (present : bool) then
    try_except parse_summary
      (λ e, print [Text "⚠️ Error parsing coverage data: "; Exc e];;
            print [Text "   Attempting to continue with minimal checks..."];;
            mret all_zero)
  else
    print [Text "⚠️ No coverage summary found (coverage/coverage-summary.json)"];;
    print [Text "   Attempting to continue with minimal checks..."];;
    mret all_zero.

(** Lines 94-122; the result is [checks_passed]. *)
Definition check_thresholds
    (lines_cov statements_cov functions_cov branches_cov : num)
  : script bool :=
  let checks_passed := true in
  checks_passed ←
    (if lt lines_cov LINES_THRESHOLD then
       print [Text "❌ Lines coverage: "; Num lines_cov;
              Text "% (threshold: "; Num (Int LINES_THRESHOLD); Text "%)"];;
       mret false
     else
       print [Text "✅ Lines coverage: "; Num lines_cov;
              Text "% (threshold: "; Num (Int LINES_THRESHOLD); Text "%)"];;
       mret checks_passed);
  checks_passed ←
    (if lt statements_cov STATEMENTS_THRESHOLD then
       print [Text "❌ Statements coverage: "; Num statements_cov;
              Text "% (threshold: "; Num (Int STATEMENTS_THRESHOLD); Text "%)"];;
       mret false
     else
       print [Text "✅ Statements coverage: "; Num statements_cov;
              Text "% (threshold: "; Num (Int STATEMENTS_THRESHOLD); Text "%)"];;
       mret checks_passed);
  checks_passed ←
    (if lt functions_cov FUNCTIONS_THRESHOLD then
       print [Text "❌ Functions coverage: "; Num functions_cov;
              Text "% (threshold: "; Num (Int FUNCTIONS_THRESHOLD); Text "%)"];;
       mret false
     else
       print [Text "✅ Functions coverage: "; Num functions_cov;
              Text "% (threshold: "; Num (Int FUNCTIONS_THRESHOLD); Text "%)"];;
       mret checks_passed);
  (if lt branches_cov BRANCHES_THRESHOLD then
     print [Text "❌ Branches coverage: "; Num branches_cov;
            Text "% (threshold: "; Num (Int BRANCHES_THRESHOLD); Text "%)"];;
     mret false
   else
     print [Text "✅ Branches coverage: "; Num branches_cov;
            Text "% (threshold: "; Num (Int BRANCHES_THRESHOLD); Text "%)"];;
     mret checks_passed).

(** Lines 125-137. *)
Definition upload_coverage : script unit :=
  print [Text (nl "Uploading coverage to Codacy...")];;
  present ← os_path_exists w lcov_path;
  if (present : bool) then
    try_except
      (returncode ← subprocess_run w upload_command;
       if negb (returncode =? 0)%Z then
         print [Text "⚠️ Coverage upload failed, but continuing..."]
       else mret tt)
      (λ e, print [Text "⚠️ Coverage upload error: "; Exc e;
                   Text ", but continuing..."])
  else
    print [Text "⚠️ No lcov.info coverage report found. Skipping upload."].

(** Lines 140-148. *)
Definition final_result (checks_passed : bool) : script unit :=
  (if negb checks_passed then
     print [Text (nl "❌ One or more coverage thresholds not met!")];;
     print [Text "   Fix coverage before pushing or use git push --no-verify to bypass."];;
     print [Text "   Or set environment variable: SKIP_PRE_PUSH=1 git push"];;
     sys_exit 1
   else mret tt);;
  print [Text (nl "✅ All coverage thresholds met!")];;
  print [Text "🧊 Pre-push quality gates passed!"];;
  sys_exit 0.

(** What follows the test run, lines 30-148. *)
Definition coverage_gate : script unit :=
  print [Text (nl "Checking coverage thresholds...")];;
  '(lines_cov, statements_cov, functions_cov, branches_cov) ← read_coverage;
  checks_passed ←
    check_thresholds lines_cov statements_cov functions_cov branches_cov;
  upload_coverage;;
  final_result checks_passed.

(** The module, top to bottom. *)
Definition main : script unit :=
  skip_check;;
  print [Text "🧊 Running ICE-WEBAPP pre-push quality gates..."];;
  print [Text "Running tests with coverage..."];;
  run_tests;;
  coverage_gate.

Definition exit_code : Z := exit_status (snd main).
Definition trace : list event := fst main.

End Stages.

(** *** Observations on a run *)

(** Either bypass variable holds the string ["1"]. *)
Definition skip_set (w : world) : Prop :=
  environ w !! "SKIP_HOOKS" = Some "1"
  ∨ environ w !! "SKIP_PRE_PUSH" = Some "1".

(** The four coverage variables as they stand at line 93, after the
    summary was read or given up. *)
Definition metrics (w : world) : num * num * num * num :=
  match snd (read_coverage w) with
  | Ret m => m
  | _ => all_zero
  end.

(** No metric is failed by its check at lines 97-122. *)
Definition thresholds_met (m : num * num * num * num) : bool :=
  let '(lines_cov, statements_cov, functions_cov, branches_cov) := m in
  negb (lt lines_cov LINES_THRESHOLD)
  && negb (lt statements_cov STATEMENTS_THRESHOLD)
  && negb (lt functions_cov FUNCTIONS_THRESHOLD)
  && negb (lt branches_cov BRANCHES_THRESHOLD).

(** The line printed for one metric: a mark, the metric's name, its value
    and its threshold. *)
Definition metric_line (mark label : string) (cov : num) (threshold : Z)
  : list piece :=
  [Text (mark ++ " " ++ label ++ " coverage: "); Num cov;
   Text "% (threshold: "; Num (Int threshold); Text "%)"].

Definition mark (failed : bool) : string :=
  if failed then "❌" else "✅".

(** The line a metric gets, by the strict comparison alone. *)
Definition verdict (label : string) (cov : num) (threshold : Z) : event :=
  EPrint (metric_line (mark (lt cov threshold)) label cov threshold).

Definition report (m : num * num * num * num) : list event :=
  let '(lines_cov, statements_cov, functions_cov, branches_cov) := m in
  [verdict "Lines" lines_cov LINES_THRESHOLD;
   verdict "Statements" statements_cov STATEMENTS_THRESHOLD;
   verdict "Functions" functions_cov FUNCTIONS_THRESHOLD;
   verdict "Branches" branches_cov BRANCHES_THRESHOLD].

(** What a run that starts the test suite has done by then. *)
Definition started : list event :=
  [EPrint [Text "🧊 Running ICE-WEBAPP pre-push quality gates..."];
   EPrint [Text "Running tests with coverage..."];
   ERun test_command].

(** The number held by [x] is strictly less than [t]: minus infinity is,
    a NaN and plus infinity are not, a finite float is by its rational
    value. *)
Definition below (x : num) (t : Z) : Prop :=
  match x with
  | Int n => (n < t)%Z
  | Float (S754_infinity s) => s = true
  | Float f => ∃ q, to_Q f = Some q ∧ (q < inject_Z t)%Q
  end.

Fixpoint contains (needle hay : string) : bool :=
  String.prefix needle hay
  || match hay with
     | EmptyString => false
     | String _ rest => contains needle rest
     end.

(** Some printed line of the trace has [needle] in its literal text. *)
Definition mentions (needle : string) (t : list event) : Prop :=
  ∃ line s, EPrint line ∈ t ∧ Text s ∈ line ∧ contains needle s = true.

(** The events other than printing. *)
Definition is_print (e : event) : bool :=
  match e with EPrint _ => true | _ => false end.

Definition actions (t : list event) : list event :=
  List.filter (λ e, negb (is_print e)) t.

(** The printed lines that report the metric called [label]. *)
Definition is_report (label : string) (e : event) : bool :=
  match e with
  | EPrint (Text s :: _) => contains (label ++ " coverage: ") s
  | _ => false
  end.

Definition reports_of (label : string) (t : list event) : list event :=
  List.filter (is_report label) t.

(** The expression of lines 56-59 for one metric:
    [total_coverage.get(metric, {}).get('pct')]. *)
Definition pct_of (total_coverage : value) (metric : string)
  : result value :=
  get total_coverage metric (VDict []) ≫= λ d, get d "pct" VNone.

(** The four metric names with their thresholds, in the order of the
    checks. *)
Definition checks : list (string * Z) :=
  [("Lines", LINES_THRESHOLD); ("Statements", STATEMENTS_THRESHOLD);
   ("Functions", FUNCTIONS_THRESHOLD); ("Branches", BRANCHES_THRESHOLD)].





End Gate.

(** ** Concrete runs

    Worlds to run the script in: a test suite that ends with a given
    status, a summary file that is absent or decodes to a given value (or
    fails to), an LCOV report that is absent or whose upload ends in a given
    way. *)
Module Examples.

Import PyFloat Python Gate.
Local Open Scope string_scope.

Definition make_world (env : gmap string string) (tests : result Z)
    (summary : option (result value)) (upload : option (result Z))
  : world :=
  {| environ := env;
     run := λ args,
       if bool_decide (args = test_command) then tests
       else match upload with
            | Some r => r
            | None => Err (OtherError "FileNotFoundError" "pnpm")
            end;
     path_exists := λ path,
       if String.eqb path summary_path then bool_decide (is_Some summary)
       else if String.eqb path lcov_path then bool_decide (is_Some upload)
       else false;
     load := λ path,
       match summary with
       | Some r => r
       | None => Err (OtherError "FileNotFoundError" path)
       end |}.

(** One entry of the summary, as the coverage reporter writes it. *)
Definition entry (pct : value) : value :=
  VDict [("total", VInt 200); ("covered", VInt 150); ("skipped", VInt 0);
         ("pct", pct)].

Definition summary_of (l s f b : value) : value :=
  VDict [("total",
          VDict [("lines", entry l); ("statements", entry s);
                 ("functions", entry f); ("branches", entry b)])].

(** [{"total": {"lines": {"pct": 75}, "statements": {"pct": 71},
    "functions": {"pct": 66}, "branches": {"pct": 61}}}] *)
Definition passing_summary : value :=
  VDict [("total",
          VDict [("lines", VDict [("pct", VInt 75)]);
                 ("statements", VDict [("pct", VInt 71)]);
                 ("functions", VDict [("pct", VInt 66)]);
                 ("branches", VDict [("pct", VInt 61)])])].

(** The same with 65 for the lines. *)
Definition low_lines_summary : value :=
  VDict [("total",
          VDict [("lines", VDict [("pct", VInt 65)]);
                 ("statements", VDict [("pct", VInt 71)]);
                 ("functions", VDict [("pct", VInt 66)]);
                 ("branches", VDict [("pct", VInt 61)])])].

(** [{"total": {"lines": {"pct": 80}, "statements": 5}}]: the second
    metric is not an object. *)
Definition broken_summary : value :=
  VDict [("total",
          VDict [("lines", VDict [("pct", VInt 80)]);
                 ("statements", VInt 5)])].

(** An integer no double can hold, as a JSON file may spell it. *)
Definition huge : value := VInt (10 ^ 400).

(** 70.0 *)
Definition seventy : float := S754_finite false 4925812092436480 (-46).

Definition skipped_world : world :=
  make_world {[ "SKIP_HOOKS" := "1" ]} (Ok 1) None None.

Definition truthy_world : world :=
  make_world {[ "SKIP_HOOKS" := "true"; "SKIP_PRE_PUSH" := "yes" ]}
    (Ok 0) (Some (Ok passing_summary)) (Some (Ok 0)).

Definition failing_tests_world : world :=
  make_world ∅ (Ok 1) (Some (Ok passing_summary)) (Some (Ok 0)).

Definition no_summary_world : world :=
  make_world ∅ (Ok 0) None (Some (Ok 0)).

Definition passing_world : world :=
  make_world ∅ (Ok 0) (Some (Ok passing_summary)) (Some (Ok 0)).

Definition failed_upload_world : world :=
  make_world ∅ (Ok 0) (Some (Ok passing_summary)) (Some (Ok 7)).

Definition low_lines_world : world :=
  make_world ∅ (Ok 0) (Some (Ok low_lines_summary)) None.

Definition broken_summary_world : world :=
  make_world ∅ (Ok 0) (Some (Ok broken_summary)) None.

(** The test command is not installed. *)
Definition no_pnpm_world : world :=
  make_world ∅ (Err (OtherError "FileNotFoundError" "pnpm")) None None.

(** The summary file holds [{}]. *)
Definition empty_summary_world : world :=
  make_world ∅ (Ok 0) (Some (Ok (VDict []))) None.

(** As [passing_world], in an environment with other variables and other
    files around. *)
Definition busy_world : world :=
  {| environ := {[ "CI" := "true"; "SKIP_HOOKS" := "0"; "HOME" := "/root" ]};
     run := λ args,
       if bool_decide (args = test_command) then Ok 0
       else if bool_decide (args = upload_command) then Ok 0
       else Ok 1;
     path_exists := λ _, true;
     load := λ path,
       if String.eqb path summary_path then Ok passing_summary
       else Err (OtherError "JSONDecodeError" path) |}.



(** The total of [passing_summary]. *)
Definition passing_total : value :=
  VDict [("lines", VDict [("pct", VInt 75)]);
         ("statements", VDict [("pct", VInt 71)]);
         ("functions", VDict [("pct", VInt 66)]);
         ("branches", VDict [("pct", VInt 61)])].

(** [{"total": {"lines": {"pct": 70.0, "covered": 7}, "statements":
    {"pct": 70.0}, "functions": {"pct": 70.0}, "branches": {"pct": 70.0}},
    "src/app.ts": {}}] *)
Definition exact_total : value :=
  VDict [("lines", VDict [("pct", VFloat seventy); ("covered", VInt 7)]);
         ("statements", VDict [("pct", VFloat seventy)]);
         ("functions", VDict [("pct", VFloat seventy)]);
         ("branches", VDict [("pct", VFloat seventy)])].

Definition exact_summary : value :=
  VDict [("total", exact_total); ("src/app.ts", VDict [])].

Definition exact_world : world :=
  make_world ∅ (Ok 0) (Some (Ok exact_summary)) None.

End Examples.

(** * Properties of the gate *)

Import PyFloat Python Gate.
Local Open Scope string_scope.
Local Open Scope list_scope.

(** ** Laws of the [script] monad *)
Section ScriptLaws.
Context {A B : Type}.

Lemma bind_Ret (t : list event) (a : A) (f : A → script B) :
  ((t, Ret a) : script A) ≫= f = (t ++ fst (f a), snd (f a)).
Proof. unfold mbind, script_bind. by destruct (f a). Qed.

Lemma bind_Exit (t : list event) (n : Z) (f : A → script B) :
  ((t, Exit n) : script A) ≫= f = (t, Exit n).
Proof. reflexivity. Qed.

Lemma bind_Raise (t : list event) (e : exn) (f : A → script B) :
  ((t, Raise e) : script A) ≫= f = (t, Raise e).
Proof. reflexivity. Qed.

Lemma print_then (line : list piece) (c : script B) :
  (print line;; c) = (EPrint line :: fst c, snd c).
Proof. unfold print, mbind, script_bind. by destruct c. Qed.
End ScriptLaws.

Lemma try_except_Ret {A} (t : list event) (a : A) (h : exn → script A) :
  try_except (t, Ret a) h = (t, Ret a).
Proof. reflexivity. Qed.

Lemma try_except_Raise {A} (t : list event) (e : exn) (h : exn → script A) :
  try_except (t, Raise e) h = (t ++ fst (h e), snd (h e)).
Proof. unfold try_except. by destruct (h e). Qed.

(** ** The stages, one by one *)
Section StageFacts.
Variable w : world.

Lemma skip_requested_iff : skip_requested w = true ↔ skip_set w.
Proof.
  unfold skip_requested, skip_set, environ_get.
  rewrite orb_true_iff, !bool_decide_eq_true. tauto.
Qed.

Lemma skip_requested_false_iff : skip_requested w = false ↔ ¬ skip_set w.
Proof.
  rewrite <- skip_requested_iff. destruct (skip_requested w); naive_solver.
Qed.

Lemma main_skipped :
  skip_requested w = true →
  main w =
    ([EPrint [Text "🧊 Skipping ICE-WEBAPP pre-push quality gates (SKIP_HOOKS=1 or SKIP_PRE_PUSH=1)"]],
     Exit 0).
Proof. intros H. unfold main, skip_check. by rewrite H. Qed.

Lemma main_tests_failed (returncode : Z) :
  skip_requested w = false →
  run w test_command = Ok returncode →
  returncode ≠ 0 →
  main w =
    (started ++
     [EPrint [Text "❌ Tests failed! Fix tests before pushing or use git push --no-verify to bypass."];
      EPrint [Text "   Or set environment variable: SKIP_PRE_PUSH=1 git push"]],
     Exit 1).
Proof.
  intros Hs Hr Hc. unfold main, skip_check, run_tests, subprocess_run.
  rewrite Hs, Hr. cbn.
  destruct (Z.eqb_spec returncode 0) as [->|_]; [done|]. reflexivity.
Qed.

Lemma main_tests_not_launched (e : exn) :
  skip_requested w = false →
  run w test_command = Err e →
  main w =
    (started ++ [EPrint [Text "❌ Error running tests: "; Exc e]], Exit 1).
Proof.
  intros Hs Hr. unfold main, skip_check, run_tests, subprocess_run.
  rewrite Hs, Hr. reflexivity.
Qed.

Lemma main_tests_passed :
  skip_requested w = false →
  run w test_command = Ok 0 →
  main w = (started ++ fst (coverage_gate w), snd (coverage_gate w)).
Proof.
  intros Hs Hr. unfold main, skip_check, run_tests, subprocess_run.
  rewrite Hs, Hr. unfold mbind, script_bind, mret, script_ret, print; simpl.
  by destruct (coverage_gate w).
Qed.
End StageFacts.

Section Ingestion.
Variable w : world.

Lemma parse_summary_shape :
  fst (parse_summary w) = [EOpen summary_path]
  ∧ ((∃ e, snd (parse_summary w) = Raise e)
     ∨ (∃ l s f b,
          snd (parse_summary w) = Ret (Float l, Float s, Float f, Float b))).
Proof.
  unfold parse_summary, json_load_open.
  destruct (load w summary_path) as [v|e]; cbn; [|eauto].
  repeat match goal with
  | |- context [get ?x ?k ?d] => destruct (get x k d); cbn; [|by eauto]
  | |- context [safe_float ?x ?d] =>
      destruct (safe_float x d); cbn; [|by eauto]
  end.
  eauto 10.
Qed.

Lemma read_coverage_absent :
  path_exists w summary_path = false →
  read_coverage w =
    ([EExists summary_path;
      EPrint [Text "⚠️ No coverage summary found (coverage/coverage-summary.json)"];
      EPrint [Text "   Attempting to continue with minimal checks..."]],
     Ret all_zero).
Proof. intros H. unfold read_coverage, os_path_exists. cbn. by rewrite H. Qed.

Lemma read_coverage_raised (e : exn) :
  path_exists w summary_path = true →
  snd (parse_summary w) = Raise e →
  read_coverage w =
    ([EExists summary_path; EOpen summary_path;
      EPrint [Text "⚠️ Error parsing coverage data: "; Exc e];
      EPrint [Text "   Attempting to continue with minimal checks..."]],
     Ret all_zero).
Proof.
  intros H He. destruct parse_summary_shape as [Ht _].
  unfold read_coverage, os_path_exists.
  destruct (parse_summary w) as [t o]; simpl in *; subst.
  cbn. by rewrite H.
Qed.

Lemma read_coverage_parsed (m : num * num * num * num) :
  path_exists w summary_path = true →
  snd (parse_summary w) = Ret m →
  read_coverage w = ([EExists summary_path; EOpen summary_path], Ret m).
Proof.
  intros H Hm. destruct parse_summary_shape as [Ht _].
  unfold read_coverage, os_path_exists.
  destruct (parse_summary w) as [t o]; simpl in *; subst.
  cbn. by rewrite H.
Qed.

Lemma read_coverage_returns :
  read_coverage w = (fst (read_coverage w), Ret (metrics w)).
Proof.
  unfold metrics.
  destruct (path_exists w summary_path) eqn:H.
  - destruct parse_summary_shape as [_ [[e He]|(l & s & f & b & Hm)]].
    + by rewrite (read_coverage_raised e).
    + by rewrite (read_coverage_parsed _ H Hm).
  - by rewrite read_coverage_absent.
Qed.

Lemma metrics_absent :
  path_exists w summary_path = false → metrics w = all_zero.
Proof. intros H. unfold metrics. by rewrite read_coverage_absent. Qed.
End Ingestion.

Lemma check_thresholds_eq (l s f b : num) :
  check_thresholds l s f b
  = (report (l, s, f, b), Ret (thresholds_met (l, s, f, b))).
Proof.
  unfold check_thresholds, report, verdict, thresholds_met.
  destruct (lt l LINES_THRESHOLD), (lt s STATEMENTS_THRESHOLD),
    (lt f FUNCTIONS_THRESHOLD), (lt b BRANCHES_THRESHOLD); reflexivity.
Qed.

Section Upload.
Variable w : world.

(** The upload stage prints its heading, looks for the report, and then
    does one of four things. *)
Lemma upload_coverage_cases :
  ∃ tail,
    upload_coverage w =
      ([EPrint [Text (nl "Uploading coverage to Codacy...")];
        EExists lcov_path] ++ tail, Ret tt)
    ∧ (tail = [EPrint [Text "⚠️ No lcov.info coverage report found. Skipping upload."]]
       ∨ tail = [ERun upload_command]
       ∨ tail = [ERun upload_command;
                 EPrint [Text "⚠️ Coverage upload failed, but continuing..."]]
       ∨ ∃ e, tail = [ERun upload_command;
                      EPrint [Text "⚠️ Coverage upload error: "; Exc e;
                              Text ", but continuing..."]]).
Proof.
  unfold upload_coverage, os_path_exists, subprocess_run. cbn.
  destruct (path_exists w lcov_path); [|by eauto].
  destruct (run w upload_command) as [c|e]; cbn.
  - destruct (c =? 0)%Z; cbn; eexists; (split; [reflexivity|]); auto.
  - eexists; split; [reflexivity|]. do 3 right. by exists e.
Qed.

Lemma upload_coverage_returns :
  upload_coverage w = (fst (upload_coverage w), Ret tt).
Proof. destruct upload_coverage_cases as (tail & -> & _). reflexivity. Qed.
End Upload.

Lemma final_result_passed :
  final_result true =
    ([EPrint [Text (nl "✅ All coverage thresholds met!")];
      EPrint [Text "🧊 Pre-push quality gates passed!"]], Exit 0).
Proof. reflexivity. Qed.

Lemma final_result_failed :
  final_result false =
    ([EPrint [Text (nl "❌ One or more coverage thresholds not met!")];
      EPrint [Text "   Fix coverage before pushing or use git push --no-verify to bypass."];
      EPrint [Text "   Or set environment variable: SKIP_PRE_PUSH=1 git push"]],
     Exit 1).
Proof. reflexivity. Qed.

Lemma final_result_exit (checks_passed : bool) :
  snd (final_result checks_passed) = Exit (if checks_passed then 0 else 1).
Proof. by destruct checks_passed. Qed.

Lemma coverage_gate_eq (w : world) :
  coverage_gate w =
    (EPrint [Text (nl "Checking coverage thresholds...")]
       :: fst (read_coverage w) ++ report (metrics w)
       ++ fst (upload_coverage w)
       ++ fst (final_result (thresholds_met (metrics w))),
     Exit (if thresholds_met (metrics w) then 0 else 1)).
Proof.
  unfold coverage_gate. rewrite print_then.
  rewrite read_coverage_returns, bind_Ret. simpl fst; simpl snd.
  destruct (metrics w) as [[[l s] f] b].
  rewrite check_thresholds_eq, bind_Ret. simpl fst; simpl snd.
  rewrite upload_coverage_returns, bind_Ret. simpl fst; simpl snd.
  rewrite final_result_exit. reflexivity.
Qed.

Lemma main_exit_status (w : world) :
  snd (main w) =
    Exit (if skip_requested w then 0
          else match run w test_command with
               | Ok 0 => if thresholds_met (metrics w) then 0 else 1
               | _ => 1
               end).
Proof.
  destruct (skip_requested w) eqn:Hs.
  - by rewrite main_skipped.
  - destruct (run w test_command) as [c|e] eqn:Hr.
    + destruct (Z.eq_dec c 0) as [->|Hc].
      * rewrite main_tests_passed, coverage_gate_eq by done. reflexivity.
      * rewrite (main_tests_failed w c) by done. by destruct c.
    + by rewrite (main_tests_not_launched w e).
Qed.

Lemma trace_passed (w : world) :
  skip_requested w = false →
  run w test_command = Ok 0%Z →
  trace w =
    started
    ++ [EPrint [Text (nl "Checking coverage thresholds...")]]
    ++ fst (read_coverage w) ++ report (metrics w)
    ++ fst (upload_coverage w)
    ++ fst (final_result (thresholds_met (metrics w))).
Proof.
  intros Hs Hr. unfold trace.
  by rewrite main_tests_passed, coverage_gate_eq.
Qed.

(** ** The strict comparison *)
Section Comparison.
Local Open Scope Z_scope.

Lemma Qpower_2_nonneg (e : Z) : 0 <= e → (Qpower 2 e == inject_Z (2 ^ e))%Q.
Proof. intros H. symmetry. exact (Zpower_Qpower 2 e H). Qed.

Lemma Qpower_2_neg (e : Z) :
  e < 0 → (Qpower 2 e == / inject_Z (2 ^ (- e)))%Q.
Proof.
  intros H. rewrite <- (Z.opp_involutive e) at 1.
  rewrite Qpower_opp, Qpower_2_nonneg by lia. reflexivity.
Qed.

Lemma finite_below (sm e t : Z) :
  (if 0 <=? e then sm * 2 ^ e ?= t else sm ?= t * 2 ^ (- e)) = Lt
  ↔ (inject_Z sm * Qpower 2 e < inject_Z t)%Q.
Proof.
  destruct (Z.leb_spec 0 e) as [He|He].
  - rewrite Qpower_2_nonneg, <- inject_Z_mult, <- Zlt_Qlt by done.
    apply Z.compare_lt_iff.
  - rewrite Qpower_2_neg by done.
    assert (Hp : 0 < 2 ^ (- e)) by (apply Z.pow_pos_nonneg; lia).
    assert (Hq : (0 < inject_Z (2 ^ (- e)))%Q)
      by (rewrite (Zlt_Qlt 0) in Hp; exact Hp).
    rewrite Z.compare_lt_iff, Zlt_Qlt, inject_Z_mult.
    set (a := inject_Z sm). set (b := inject_Z t).
    set (c := inject_Z (2 ^ (- e))) in *.
    assert (Hc : ¬ (c == 0)%Q)
      by (intros Heq; rewrite Heq in Hq; by apply Qlt_irrefl in Hq).
    split; intros Hlt.
    + by apply Qlt_shift_div_r.
    + apply (Qmult_lt_compat_r _ _ c) in Hlt; [|done].
      by rewrite <- Qmult_assoc, (Qmult_comm (/ c)), Qmult_inv_r, Qmult_1_r
        in Hlt.
Qed.

Lemma lt_below (x : num) (t : Z) : lt x t = true ↔ below x t.
Proof.
  destruct x as [n|[s|s| |s m e]]; simpl.
  - apply Z.ltb_lt.
  - unfold ltb_Z; destruct t; simpl; split; try done.
    + intros (q & [= <-] & Hq). by apply Qlt_irrefl in Hq.
    + intros _. by exists 0%Q.
    + intros (q & [= <-] & Hq). unfold Qlt in Hq; simpl in Hq; lia.
  - unfold ltb_Z; simpl. by destruct s.
  - unfold ltb_Z; simpl. split; [done | by intros (q & ? & _)].
  - unfold ltb_Z, compare_Z. cbv zeta.
    pose proof (finite_below (cond_Zopp s (Z.pos m)) e t) as H.
    split.
    + intros Hm. eexists; split; [reflexivity|]. apply H.
      by destruct (if 0 <=? e then _ else _).
    + intros (q & [= <-] & Hq). apply H in Hq. by rewrite Hq.
Qed.
End Comparison.

Lemma ge_not_lt (x : num) (t : Z) :
  num_is_nan x = false → ge x t = negb (lt x t).
Proof.
  destruct x as [n|f]; simpl.
  - intros _. apply Z.leb_antisym.
  - unfold leb_Z_l, ltb_Z. destruct f as [s|s| |s m e]; simpl; try done.
    + by destruct t.
    + by destruct s.
    + by destruct (if (0 <=? e)%Z then _ else _).
Qed.

(** ** What decides the exit status *)


(** C2. When either bypass variable holds ["1"] the run prints the notice
    and leaves with status 0; it starts no child process and looks at no
    file. *)
Theorem bypass_short_circuits (w : world) :
  skip_set w →
  main w =
    ([EPrint [Text "🧊 Skipping ICE-WEBAPP pre-push quality gates (SKIP_HOOKS=1 or SKIP_PRE_PUSH=1)"]],
     Exit 0%Z)
  ∧ exit_code w = 0%Z
  ∧ actions (trace w) = [].
Proof.
  intros H%skip_requested_iff. unfold exit_code, trace.
  by rewrite main_skipped.
Qed.

Lemma bypass_short_circuits_witness :
  skip_set Examples.skipped_world
  ∧ exit_code Examples.skipped_world = 0%Z
  ∧ actions (trace Examples.skipped_world) = [].
Proof.
  assert (H : skip_set Examples.skipped_world) by (left; reflexivity).
  split; [exact H|]. exact (proj2 (bypass_short_circuits _ H)).
Defined.

(** C9. A bypass variable that is unset, or holds anything but the string
    ["1"], does not skip: the run goes on to start the test suite. *)
Theorem only_the_string_1_bypasses (w : world) :
  environ w !! "SKIP_HOOKS" ≠ Some "1" →
  environ w !! "SKIP_PRE_PUSH" ≠ Some "1" →
  skip_requested w = false
  ∧ skip_check w = ([], Ret tt)
  ∧ ∃ rest, trace w = started ++ rest.
Proof.
  intros H1 H2.
  assert (Hs : skip_requested w = false).
  { apply skip_requested_false_iff. by intros [|]. }
  split; [done|]. split; [unfold skip_check; by rewrite Hs|].
  unfold trace. destruct (run w test_command) as [c|e] eqn:Hr.
  - destruct (Z.eq_dec c 0) as [->|Hc].
    + rewrite main_tests_passed by done. by eexists.
    + rewrite (main_tests_failed w c) by done. by eexists.
  - rewrite (main_tests_not_launched w e) by done. by eexists.
Qed.

Lemma only_the_string_1_bypasses_witness :
  environ Examples.truthy_world !! "SKIP_HOOKS" = Some "true"
  ∧ environ Examples.truthy_world !! "SKIP_PRE_PUSH" = Some "yes"
  ∧ skip_requested Examples.truthy_world = false
  ∧ (∃ rest, trace Examples.truthy_world = started ++ rest)
  ∧ environ Examples.passing_world !! "SKIP_HOOKS" = None
  ∧ environ Examples.passing_world !! "SKIP_PRE_PUSH" = None
  ∧ ∃ rest, trace Examples.passing_world = started ++ rest.
Proof.
  split; [reflexivity|]. split; [reflexivity|].
  pose proof (only_the_string_1_bypasses Examples.truthy_world) as H.
  destruct H as (Hs & _ & Hr).
  - vm_compute. discriminate.
  - vm_compute. discriminate.
  - split; [exact Hs|]. split; [exact Hr|].
    split; [reflexivity|]. split; [reflexivity|].
    apply (only_the_string_1_bypasses Examples.passing_world).
    + vm_compute. discriminate.
    + vm_compute. discriminate.
Defined.

(** C5. When the test suite ends with a status other than 0, or cannot be
    launched, the run prints its guidance and leaves with status 1; the
    only thing it did besides printing was to start the test suite, so it
    read no coverage file and uploaded nothing.  After a status other than
    0 the guidance names both ways around the hook. *)
Theorem test_failure_is_fatal (w : world) :
  skip_requested w = false →
  run w test_command ≠ Ok 0%Z →
  snd (main w) = Exit 1%Z
  ∧ (∃ guidance, guidance ≠ [] ∧ trace w = started ++ map EPrint guidance)
  ∧ actions (trace w) = [ERun test_command]
  ∧ (∀ c, run w test_command = Ok c →
       mentions "git push --no-verify" (trace w)
       ∧ mentions "SKIP_PRE_PUSH=1" (trace w)).
Proof.
  intros Hs Hr. unfold trace.
  destruct (run w test_command) as [c|e] eqn:Hc.
  - assert (c ≠ 0%Z) by congruence.
    rewrite (main_tests_failed w c) by done.
    split; [done|]. split; [by eexists [_; _]|]. split; [done|].
    intros _ _. split.
    + eexists _, _. split.
      { do 3 apply list_elem_of_further. apply list_elem_of_here. }
      split; [apply list_elem_of_here | reflexivity].
    + eexists _, _. split.
      { do 4 apply list_elem_of_further. apply list_elem_of_here. }
      split; [apply list_elem_of_here | reflexivity].
  - rewrite (main_tests_not_launched w e) by done.
    split; [done|]. split; [by eexists [_]|]. split; [done|].
    by intros c.
Qed.

Lemma test_failure_is_fatal_witness :
  snd (main Examples.failing_tests_world) = Exit 1%Z
  ∧ actions (trace Examples.failing_tests_world) = [ERun test_command].
Proof.
  pose proof (test_failure_is_fatal Examples.failing_tests_world) as H.
  destruct H as (H1 & _ & H2 & _).
  - reflexivity.
  - vm_compute. discriminate.
  - split; [exact H1 | exact H2].
Defined.

(** ** Thresholds *)

(** C3. The thresholds are 70, 70, 65 and 60.  The line printed for a
    metric carries the failure mark exactly when the script's [<] holds,
    and [<] holds exactly when the number held is strictly less than the
    threshold; a value equal to its threshold, such as 70.0 for the lines,
    gets the passing mark. *)
Theorem threshold_failure_is_strict :
  (LINES_THRESHOLD, STATEMENTS_THRESHOLD, FUNCTIONS_THRESHOLD,
   BRANCHES_THRESHOLD) = (70, 70, 65, 60)%Z
  ∧ (∀ l s f b,
       fst (check_thresholds l s f b) =
         [EPrint (metric_line (mark (lt l 70)) "Lines" l 70);
          EPrint (metric_line (mark (lt s 70)) "Statements" s 70);
          EPrint (metric_line (mark (lt f 65)) "Functions" f 65);
          EPrint (metric_line (mark (lt b 60)) "Branches" b 60)]
       ∧ snd (check_thresholds l s f b) =
           Ret (negb (lt l 70) && negb (lt s 70)
                && negb (lt f 65) && negb (lt b 60)))
  ∧ (∀ x t, lt x t = true ↔ below x t)
  ∧ (float_of (VInt 70) = Ok Examples.seventy
     ∧ (∃ q, to_Q Examples.seventy = Some q ∧ (q == inject_Z 70)%Q)
     ∧ lt (Float Examples.seventy) LINES_THRESHOLD = false
     ∧ mark (lt (Float Examples.seventy) LINES_THRESHOLD) = "✅").
Proof.
  split; [reflexivity|]. split.
  { intros l s f b. by rewrite check_thresholds_eq. }
  split; [apply lt_below|].
  split; [reflexivity|]. split; [|by split].
  eexists. split; [reflexivity|]. by vm_compute.
Qed.

Section Reports.
Variable w : world.
Variable label : string.
Hypothesis known : label ∈ ["Lines"; "Statements"; "Functions"; "Branches"].

Ltac each_label :=
  repeat (apply elem_of_cons in known as [->|known]);
  [..|by apply elem_of_nil in known].

Lemma reports_of_app (t1 t2 : list event) :
  reports_of label (t1 ++ t2) = reports_of label t1 ++ reports_of label t2.
Proof. apply List.filter_app. Qed.

Lemma no_report_before : reports_of label started = [].
Proof. each_label; reflexivity. Qed.

Lemma no_report_in_read_coverage :
  reports_of label (fst (read_coverage w)) = [].
Proof.
  destruct (path_exists w summary_path) eqn:H.
  - destruct (parse_summary_shape w)
      as [_ [[e He]|(l & s & f & b & Hm)]].
    + rewrite (read_coverage_raised w e) by done. each_label; reflexivity.
    + rewrite (read_coverage_parsed w _ H Hm). each_label; reflexivity.
  - rewrite read_coverage_absent by done. each_label; reflexivity.
Qed.

Lemma no_report_in_upload :
  reports_of label (fst (upload_coverage w)) = [].
Proof.
  destruct (upload_coverage_cases w) as (tail & -> & [->|[->|[->|[e ->]]]]);
    each_label; reflexivity.
Qed.

Lemma no_report_in_final (checks_passed : bool) :
  reports_of label (fst (final_result checks_passed)) = [].
Proof. destruct checks_passed; each_label; reflexivity. Qed.

Lemma reports_of_run (m : num * num * num * num) :
  skip_requested w = false →
  run w test_command = Ok 0%Z →
  metrics w = m →
  reports_of label (trace w) = reports_of label (report m).
Proof.
  intros Hs Hr <-. rewrite trace_passed by done.
  assert (reports_of label
            [EPrint [Text (nl "Checking coverage thresholds...")]] = [])
    as Hc by (each_label; reflexivity).
  rewrite !reports_of_app, no_report_before, no_report_in_read_coverage,
    no_report_in_upload, no_report_in_final, Hc.
  by rewrite !app_nil_r.
Qed.
End Reports.

Ltac known_label :=
  repeat first [apply list_elem_of_here | apply list_elem_of_further].

Lemma reports_of_report (l s f b : num) :
  reports_of "Lines" (report (l, s, f, b)) = [verdict "Lines" l LINES_THRESHOLD]
  ∧ reports_of "Statements" (report (l, s, f, b))
    = [verdict "Statements" s STATEMENTS_THRESHOLD]
  ∧ reports_of "Functions" (report (l, s, f, b))
    = [verdict "Functions" f FUNCTIONS_THRESHOLD]
  ∧ reports_of "Branches" (report (l, s, f, b))
    = [verdict "Branches" b BRANCHES_THRESHOLD].
Proof.
  unfold report, verdict.
  destruct (lt l LINES_THRESHOLD), (lt s STATEMENTS_THRESHOLD),
    (lt f FUNCTIONS_THRESHOLD), (lt b BRANCHES_THRESHOLD);
    repeat split; reflexivity.
Qed.

(** C8. In a run that gets past the tests, the threshold stage prints its
    four lines, one per metric and in the order lines, statements,
    functions, branches, each with the value and the threshold, and hands
    on the flag; whatever the values, each metric is reported once in the
    whole run. *)
Theorem each_metric_reported_once (w : world) (l s f b : num) :
  skip_requested w = false →
  run w test_command = Ok 0%Z →
  metrics w = (l, s, f, b) →
  check_thresholds l s f b =
    ([verdict "Lines" l LINES_THRESHOLD;
      verdict "Statements" s STATEMENTS_THRESHOLD;
      verdict "Functions" f FUNCTIONS_THRESHOLD;
      verdict "Branches" b BRANCHES_THRESHOLD],
     Ret (thresholds_met (l, s, f, b)))
  ∧ (∃ before after,
       trace w = before ++ fst (check_thresholds l s f b) ++ after)
  ∧ reports_of "Lines" (trace w) = [verdict "Lines" l LINES_THRESHOLD]
  ∧ reports_of "Statements" (trace w)
    = [verdict "Statements" s STATEMENTS_THRESHOLD]
  ∧ reports_of "Functions" (trace w)
    = [verdict "Functions" f FUNCTIONS_THRESHOLD]
  ∧ reports_of "Branches" (trace w)
    = [verdict "Branches" b BRANCHES_THRESHOLD].
Proof.
  intros Hs Hr Hm. split; [apply check_thresholds_eq|]. split.
  { rewrite trace_passed, Hm, check_thresholds_eq by done. simpl fst.
    exists (started
            ++ [EPrint [Text (nl "Checking coverage thresholds...")]]
            ++ fst (read_coverage w)),
      (fst (upload_coverage w)
       ++ fst (final_result (thresholds_met (l, s, f, b)))).
    rewrite <- !app_assoc. reflexivity. }
  destruct (reports_of_report l s f b) as (H1 & H2 & H3 & H4).
  rewrite (reports_of_run w "Lines" ltac:(known_label) _ Hs Hr Hm),
    (reports_of_run w "Statements" ltac:(known_label) _ Hs Hr Hm),
    (reports_of_run w "Functions" ltac:(known_label) _ Hs Hr Hm),
    (reports_of_run w "Branches" ltac:(known_label) _ Hs Hr Hm).
  done.
Qed.

Lemma each_metric_reported_once_witness :
  metrics Examples.low_lines_world
  = (Float (S754_finite false 4573968371548160 (-46)),
     Float (S754_finite false 4996180836614144 (-46)),
     Float (S754_finite false 4644337115725824 (-46)),
     Float (S754_finite false 8584986789675008 (-47)))
  ∧ reports_of "Lines" (trace Examples.low_lines_world)
    = [verdict "Lines" (Float (S754_finite false 4573968371548160 (-46)))
         LINES_THRESHOLD]
  ∧ reports_of "Branches" (trace Examples.low_lines_world)
    = [verdict "Branches" (Float (S754_finite false 8584986789675008 (-47)))
         BRANCHES_THRESHOLD].
Proof.
  split; [reflexivity|].
  pose proof (each_metric_reported_once Examples.low_lines_world) as H.
  edestruct H as (_ & _ & H1 & _ & _ & H4).
  - reflexivity.
  - reflexivity.
  - reflexivity.
  - split; [exact H1 | exact H4].
Defined.

(** ** Numeric coercion *)

(** The only exception that leaves [safe_float] is the [OverflowError] of
    an [int] too large for a double. *)
Lemma safe_float_raises_iff (v : value) (d : float) (e : exn) :
  safe_float v d = Err e
  ↔ e = OverflowError ∧ ∃ n, v = VInt n ∧ of_Z n = None.
Proof.
  unfold safe_float, try_except_in. split.
  - destruct v as [|b|n|f|s|l|items]; simpl; try done.
    + destruct (of_Z n) eqn:Hn; [done|]. intros [= <-]. eauto.
    + destruct (String.eqb s "Unknown"); [done|].
      by destruct (of_string s).
  - intros (-> & n & -> & Hn). simpl. by rewrite Hn.
Qed.

Lemma of_Z_largest :
  of_Z (2 ^ 1024 - 2 ^ 970 - 1) = Some (S754_finite false 9007199254740991 971)
  ∧ of_Z (2 ^ 1024 - 2 ^ 970) = None
  ∧ of_Z (- (2 ^ 1024 - 2 ^ 970)) = None.
Proof. repeat split; by vm_compute. Qed.

(** C4, at the input where the code departs from it: the [int] 10^400 makes
    [float] raise [OverflowError], which the handler for [ValueError] and
    [TypeError] lets through, so [safe_float] raises instead of returning
    the default. *)
Theorem safe_float_overflow_escapes :
  float_of Examples.huge = Err OverflowError
  ∧ safe_float Examples.huge default_float = Err OverflowError.
Proof. split; by vm_compute. Qed.

(** ** Coverage ingestion *)

Lemma read_coverage_ext (w w' : world) :
  path_exists w' summary_path = path_exists w summary_path →
  load w' summary_path = load w summary_path →
  read_coverage w' = read_coverage w.
Proof.
  intros H1 H2.
  unfold read_coverage, parse_summary, os_path_exists, json_load_open.
  by rewrite H1, H2.
Qed.

Lemma metrics_ext (w w' : world) :
  path_exists w' summary_path = path_exists w summary_path →
  load w' summary_path = load w summary_path →
  metrics w' = metrics w.
Proof. intros H1 H2. unfold metrics. by rewrite (read_coverage_ext w w'). Qed.

(** C10. When the body of the [try] raises, whatever it had extracted, the
    four variables are set to 0 together; the variables that reach the
    threshold stage are either those four zeros or the four floats of a
    body that ran to its end. *)
Theorem ingestion_all_or_nothing (w : world) (e : exn) :
  path_exists w summary_path = true →
  snd (parse_summary w) = Raise e →
  read_coverage w =
    ([EExists summary_path; EOpen summary_path;
      EPrint [Text "⚠️ Error parsing coverage data: "; Exc e];
      EPrint [Text "   Attempting to continue with minimal checks..."]],
     Ret (Int 0, Int 0, Int 0, Int 0))
  ∧ metrics w = (Int 0, Int 0, Int 0, Int 0)
  ∧ (∀ w' : world,
       snd (read_coverage w') = Ret (Int 0, Int 0, Int 0, Int 0)
       ∨ ∃ l s f b,
           snd (parse_summary w') = Ret (Float l, Float s, Float f, Float b)
           ∧ snd (read_coverage w')
             = Ret (Float l, Float s, Float f, Float b)).
Proof.
  intros H He. split; [by apply read_coverage_raised|].
  split; [unfold metrics; by rewrite (read_coverage_raised w e)|].
  intros w'.
  destruct (path_exists w' summary_path) eqn:H'.
  - destruct (parse_summary_shape w')
      as [_ [[e' He']|(l & s & f & b & Hm)]].
    + left. by rewrite (read_coverage_raised w' e').
    + right. exists l, s, f, b. by rewrite (read_coverage_parsed w' _ H' Hm).
  - left. by rewrite read_coverage_absent.
Qed.

Lemma ingestion_all_or_nothing_witness :
  snd (parse_summary Examples.broken_summary_world) = Raise AttributeError
  ∧ metrics Examples.broken_summary_world = (Int 0, Int 0, Int 0, Int 0).
Proof.
  assert (He : snd (parse_summary Examples.broken_summary_world)
               = Raise AttributeError) by reflexivity.
  split; [exact He|].
  refine (proj1 (proj2 (ingestion_all_or_nothing
                          Examples.broken_summary_world AttributeError _ He))).
  reflexivity.
Defined.

(** C6. Without a summary file, in a run that got past the tests, the four
    variables are 0, each of the four checks prints its failure line, and
    the run leaves with status 1 without having opened the file. *)
Theorem missing_summary_fails (w : world) :
  skip_requested w = false →
  run w test_command = Ok 0%Z →
  path_exists w summary_path = false →
  read_coverage w =
    ([EExists summary_path;
      EPrint [Text "⚠️ No coverage summary found (coverage/coverage-summary.json)"];
      EPrint [Text "   Attempting to continue with minimal checks..."]],
     Ret (Int 0, Int 0, Int 0, Int 0))
  ∧ metrics w = (Int 0, Int 0, Int 0, Int 0)
  ∧ check_thresholds (Int 0) (Int 0) (Int 0) (Int 0) =
      ([EPrint (metric_line "❌" "Lines" (Int 0) 70);
        EPrint (metric_line "❌" "Statements" (Int 0) 70);
        EPrint (metric_line "❌" "Functions" (Int 0) 65);
        EPrint (metric_line "❌" "Branches" (Int 0) 60)], Ret false)
  ∧ trace w =
      started
      ++ [EPrint [Text (nl "Checking coverage thresholds...")];
          EExists summary_path;
          EPrint [Text "⚠️ No coverage summary found (coverage/coverage-summary.json)"];
          EPrint [Text "   Attempting to continue with minimal checks..."]]
      ++ fst (check_thresholds (Int 0) (Int 0) (Int 0) (Int 0))
      ++ fst (upload_coverage w)
      ++ fst (final_result false)
  ∧ snd (main w) = Exit 1%Z
  ∧ exit_code w = 1%Z.
Proof.
  intros Hs Hr Ha. pose proof (metrics_absent w Ha) as Hm.
  split; [by apply read_coverage_absent|].
  split; [done|]. split; [reflexivity|]. split.
  - rewrite trace_passed, Hm, read_coverage_absent by done. reflexivity.
  - unfold exit_code. rewrite main_exit_status, Hs, Hr, Hm. by split.
Qed.

Lemma missing_summary_fails_witness :
  metrics Examples.no_summary_world = (Int 0, Int 0, Int 0, Int 0)
  ∧ exit_code Examples.no_summary_world = 1%Z.
Proof.
  pose proof (missing_summary_fails Examples.no_summary_world) as H.
  destruct H as (_ & H1 & _ & _ & _ & H2).
  - reflexivity.
  - reflexivity.
  - reflexivity.
  - split; [exact H1 | exact H2].
Defined.

(** ** Upload *)

(** C7. Two runs that differ only in what the upload stage meets (the LCOV
    report, the upload command) leave with the same status.  The stage
    always returns: without the report it prints a warning and starts
    nothing, after a status other than 0 or a failed launch it prints a
    warning, and what follows it exits with 1 or 0 by the flag alone. *)
Theorem upload_never_changes_exit (w w' : world) :
  environ w' = environ w →
  run w' test_command = run w test_command →
  path_exists w' summary_path = path_exists w summary_path →
  load w' summary_path = load w summary_path →
  exit_code w' = exit_code w
  ∧ (path_exists w lcov_path = false →
     upload_coverage w =
       ([EPrint [Text (nl "Uploading coverage to Codacy...")];
         EExists lcov_path;
         EPrint [Text "⚠️ No lcov.info coverage report found. Skipping upload."]],
        Ret tt))
  ∧ (∀ c, path_exists w lcov_path = true →
          run w upload_command = Ok c →
          upload_coverage w =
            ([EPrint [Text (nl "Uploading coverage to Codacy...")];
              EExists lcov_path; ERun upload_command]
             ++ (if (c =? 0)%Z then []
                 else [EPrint [Text "⚠️ Coverage upload failed, but continuing..."]]),
             Ret tt))
  ∧ (∀ e, path_exists w lcov_path = true →
          run w upload_command = Err e →
          upload_coverage w =
            ([EPrint [Text (nl "Uploading coverage to Codacy...")];
              EExists lcov_path; ERun upload_command;
              EPrint [Text "⚠️ Coverage upload error: "; Exc e;
                      Text ", but continuing..."]],
             Ret tt))
  ∧ (∀ checks_passed : bool,
       snd (upload_coverage w;; final_result checks_passed)
       = Exit (if checks_passed then 0 else 1)%Z).
Proof.
  intros He Hr Hp Hl. split; [|split; [|split; [|split]]].
  - unfold exit_code. rewrite !main_exit_status.
    unfold metrics, skip_requested, environ_get.
    by rewrite He, Hr, (read_coverage_ext w w').
  - intros H. unfold upload_coverage, os_path_exists. cbn. by rewrite H.
  - intros c H Hc. unfold upload_coverage, os_path_exists, subprocess_run.
    cbn. rewrite H, Hc. cbn. by destruct (c =? 0)%Z.
  - intros e H Hc. unfold upload_coverage, os_path_exists, subprocess_run.
    cbn. by rewrite H, Hc.
  - intros flag. rewrite upload_coverage_returns, bind_Ret.
    apply final_result_exit.
Qed.

Lemma upload_never_changes_exit_witness :
  exit_code Examples.failed_upload_world = exit_code Examples.passing_world
  ∧ exit_code Examples.passing_world = 0%Z.
Proof.
  split; [|reflexivity].
  refine (proj1 (upload_never_changes_exit Examples.passing_world
                   Examples.failed_upload_world _ _ _ _)); reflexivity.
Defined.

(** ** Further properties *)

(** X1. On 42, 42.5, ["Unknown"], ["garbage"], [None] and the [None] of a
    missing key, [safe_float] returns 42.0, 42.5 and four times 0.0. *)
Theorem safe_float_on_samples :
  safe_float (VInt 42) default_float
  = Ok (S754_finite false 5910974510923776 (-47))
  ∧ safe_float (VFloat (S754_finite false 5981343255101440 (-47)))
      default_float
    = Ok (S754_finite false 5981343255101440 (-47))
  ∧ safe_float (VStr "Unknown") default_float = Ok (S754_zero false)
  ∧ safe_float (VStr "garbage") default_float = Ok (S754_zero false)
  ∧ safe_float VNone default_float = Ok (S754_zero false)
  ∧ (get (VDict []) "lines" (VDict []) ≫= λ d, get d "pct" VNone) = Ok VNone
  ∧ (∃ q, to_Q (S754_finite false 5910974510923776 (-47)) = Some q
          ∧ (q == inject_Z 42)%Q)
  ∧ (∃ q, to_Q (S754_finite false 5981343255101440 (-47)) = Some q
          ∧ (q == 85 # 2)%Q).
Proof.
  repeat (split; [reflexivity|]).
  split; (eexists; split; [reflexivity | by vm_compute]).
Qed.

(** X2. An exception leaves [safe_float] only as the [OverflowError] of an
    [int] that [float] cannot convert; on every other value it returns a
    float. *)
Theorem safe_float_raises_only_overflow (v : value) (d : float) :
  (∀ e, safe_float v d = Err e
        ↔ e = OverflowError ∧ ∃ n, v = VInt n ∧ of_Z n = None)
  ∧ ((∀ n, v ≠ VInt n) → ∃ f, safe_float v d = Ok f).
Proof.
  split; [intros e; apply safe_float_raises_iff|].
  intros Hv. destruct (safe_float v d) as [f|e] eqn:H; [by eexists|].
  apply safe_float_raises_iff in H as (_ & n & -> & _). by destruct (Hv n).
Qed.

(** X3. Reading the coverage never ends the run: it returns four zeros or
    four floats. *)
Theorem read_coverage_never_fails (w : world) :
  ∃ t m,
    read_coverage w = (t, Ret m)
    ∧ (m = (Int 0, Int 0, Int 0, Int 0)
       ∨ ∃ l s f b, m = (Float l, Float s, Float f, Float b)).
Proof.
  destruct (path_exists w summary_path) eqn:H.
  - destruct (parse_summary_shape w) as [_ [[e He]|(l & s & f & b & Hm)]].
    + rewrite (read_coverage_raised w e) by done. eauto.
    + rewrite (read_coverage_parsed w _ H Hm). eauto 10.
  - rewrite read_coverage_absent by done. eauto.
Qed.

(** X4. With [{"total": {"lines": {"pct": 75}, "statements": {"pct": 71},
    "functions": {"pct": 66}, "branches": {"pct": 61}}}] and a test run that
    returned 0, the four checks pass and the run exits with 0. *)
Theorem passing_summary_passes (w : world) :
  skip_requested w = false →
  run w test_command = Ok 0%Z →
  path_exists w summary_path = true →
  load w summary_path = Ok Examples.passing_summary →
  thresholds_met (metrics w) = true
  ∧ map (λ label, reports_of label (trace w))
      ["Lines"; "Statements"; "Functions"; "Branches"]
    = [[EPrint (metric_line "✅" "Lines"
                  (Float (S754_finite false 5277655813324800 (-46))) 70)];
       [EPrint (metric_line "✅" "Statements"
                  (Float (S754_finite false 4996180836614144 (-46))) 70)];
       [EPrint (metric_line "✅" "Functions"
                  (Float (S754_finite false 4644337115725824 (-46))) 65)];
       [EPrint (metric_line "✅" "Branches"
                  (Float (S754_finite false 8584986789675008 (-47))) 60)]]
  ∧ snd (main w) = Exit 0%Z.
Proof.
  intros Hs Hr Hp Hl.
  assert (Hm : metrics w
               = (Float (S754_finite false 5277655813324800 (-46)),
                  Float (S754_finite false 4996180836614144 (-46)),
                  Float (S754_finite false 4644337115725824 (-46)),
                  Float (S754_finite false 8584986789675008 (-47)))).
  { rewrite (metrics_ext Examples.passing_world w);
      [reflexivity | by rewrite Hp | by rewrite Hl]. }
  split; [by rewrite Hm|]. split.
  - simpl map.
    rewrite (reports_of_run w "Lines" ltac:(known_label) _ Hs Hr Hm),
      (reports_of_run w "Statements" ltac:(known_label) _ Hs Hr Hm),
      (reports_of_run w "Functions" ltac:(known_label) _ Hs Hr Hm),
      (reports_of_run w "Branches" ltac:(known_label) _ Hs Hr Hm).
    reflexivity.
  - by rewrite main_exit_status, Hs, Hr, Hm.
Qed.

Lemma passing_summary_passes_witness :
  snd (main Examples.passing_world) = Exit 0%Z.
Proof.
  refine (proj2 (proj2 (passing_summary_passes Examples.passing_world
                          _ _ _ _))); reflexivity.
Defined.

(** X5. With 65 for the lines and the other three as above, the lines are
    reported as failing, the other three as passing, and the run exits
    with 1. *)
Theorem low_lines_fail (w : world) :
  skip_requested w = false →
  run w test_command = Ok 0%Z →
  path_exists w summary_path = true →
  load w summary_path = Ok Examples.low_lines_summary →
  map (λ label, reports_of label (trace w))
    ["Lines"; "Statements"; "Functions"; "Branches"]
  = [[EPrint (metric_line "❌" "Lines"
                (Float (S754_finite false 4573968371548160 (-46))) 70)];
     [EPrint (metric_line "✅" "Statements"
                (Float (S754_finite false 4996180836614144 (-46))) 70)];
     [EPrint (metric_line "✅" "Functions"
                (Float (S754_finite false 4644337115725824 (-46))) 65)];
     [EPrint (metric_line "✅" "Branches"
                (Float (S754_finite false 8584986789675008 (-47))) 60)]]
  ∧ snd (main w) = Exit 1%Z.
Proof.
  intros Hs Hr Hp Hl.
  assert (Hm : metrics w
               = (Float (S754_finite false 4573968371548160 (-46)),
                  Float (S754_finite false 4996180836614144 (-46)),
                  Float (S754_finite false 4644337115725824 (-46)),
                  Float (S754_finite false 8584986789675008 (-47)))).
  { rewrite (metrics_ext Examples.low_lines_world w);
      [reflexivity | by rewrite Hp | by rewrite Hl]. }
  split.
  - simpl map.
    rewrite (reports_of_run w "Lines" ltac:(known_label) _ Hs Hr Hm),
      (reports_of_run w "Statements" ltac:(known_label) _ Hs Hr Hm),
      (reports_of_run w "Functions" ltac:(known_label) _ Hs Hr Hm),
      (reports_of_run w "Branches" ltac:(known_label) _ Hs Hr Hm).
    reflexivity.
  - by rewrite main_exit_status, Hs, Hr, Hm.
Qed.

Lemma low_lines_fail_witness :
  snd (main Examples.low_lines_world) = Exit 1%Z.
Proof.
  refine (proj2 (low_lines_fail Examples.low_lines_world _ _ _ _));
    reflexivity.
Defined.

(** X6. A value that is not a NaN passes its check exactly when it is at
    least the threshold; a NaN passes every check. *)
Theorem passing_is_at_least (x : num) (t : Z) :
  (num_is_nan x = false → negb (lt x t) = ge x t)
  ∧ (num_is_nan x = true → lt x t = false ∧ ge x t = false).
Proof.
  split.
  - intros H. by rewrite ge_not_lt.
  - destruct x as [n|[]]; simpl; try done.
Qed.

(** X7. An integer percentage from 0 to 100 is converted to the float of
    the same value. *)
Theorem safe_float_on_percentages (n : Z) :
  (0 ≤ n ≤ 100)%Z →
  ∃ f q, safe_float (VInt n) default_float = Ok f
         ∧ to_Q f = Some q ∧ (q == inject_Z n)%Q.
Proof.
  intros Hn.
  assert (Hk : ∃ k : nat, n = Z.of_nat k ∧ (k ≤ 100)%nat)
    by (exists (Z.to_nat n); lia).
  destruct Hk as (k & -> & Hk).
  do 101 (destruct k as [|k];
          [eexists _, _; split; [reflexivity|]; split; [reflexivity|];
           by vm_compute|]).
  lia.
Qed.

Lemma safe_float_on_percentages_witness :
  ∃ f q, safe_float (VInt 70) default_float = Ok f
         ∧ to_Q f = Some q ∧ (q == inject_Z 70)%Q.
Proof. apply (safe_float_on_percentages 70). lia. Defined.

(** * What the run touches, and in which order *)

Lemma actions_app (t1 t2 : list event) :
  actions (t1 ++ t2) = actions t1 ++ actions t2.
Proof. apply List.filter_app. Qed.

Lemma actions_report (m : num * num * num * num) : actions (report m) = [].
Proof. by destruct m as [[[l s] f] b]. Qed.

Lemma actions_final (checks_passed : bool) :
  actions (fst (final_result checks_passed)) = [].
Proof. by destruct checks_passed. Qed.

Lemma actions_read_coverage (w : world) :
  actions (fst (read_coverage w)) =
    EExists summary_path
    :: (if path_exists w summary_path then [EOpen summary_path] else []).
Proof.
  destruct (path_exists w summary_path) eqn:H.
  - destruct (parse_summary_shape w) as [_ [[e He]|(l & s & f & b & Hm)]].
    + by rewrite (read_coverage_raised w e).
    + by rewrite (read_coverage_parsed w _ H Hm).
  - by rewrite read_coverage_absent.
Qed.

Lemma actions_upload (w : world) :
  actions (fst (upload_coverage w)) =
    EExists lcov_path
    :: (if path_exists w lcov_path then [ERun upload_command] else []).
Proof.
  unfold upload_coverage, os_path_exists, subprocess_run. cbn.
  destruct (path_exists w lcov_path); [|done].
  destruct (run w upload_command) as [c|e]; cbn; [|done].
  by destruct (c =? 0)%Z.
Qed.

(** X8. A run that is not bypassed starts the test command first.  Only
    when it returned 0 does the run look for the summary, open it when it
    is there, then look for the LCOV report and start the upload command
    when it is there, whether or not the thresholds were met; it touches
    nothing else, and nothing twice. *)
Theorem actions_of_run (w : world) :
  skip_requested w = false →
  actions (trace w) =
    ERun test_command
    :: match run w test_command with
       | Ok 0%Z =>
           EExists summary_path
           :: (if path_exists w summary_path then [EOpen summary_path] else [])
           ++ EExists lcov_path
           :: (if path_exists w lcov_path then [ERun upload_command] else [])
       | _ => []
       end.
Proof.
  intros Hs. destruct (run w test_command) as [c|e] eqn:Hr.
  - destruct (Z.eq_dec c 0) as [->|Hc].
    + rewrite trace_passed by done.
      rewrite !actions_app, actions_read_coverage, actions_report,
        actions_upload, actions_final, app_nil_r.
      reflexivity.
    + unfold trace. rewrite (main_tests_failed w c) by done. by destruct c.
  - unfold trace. by rewrite (main_tests_not_launched w e).
Qed.

Lemma actions_of_run_witness :
  actions (trace Examples.low_lines_world) =
    [ERun test_command; EExists summary_path; EOpen summary_path;
     EExists lcov_path].
Proof. apply (actions_of_run Examples.low_lines_world). reflexivity. Defined.

(** X9. The run depends on its surroundings only through whether a bypass
    variable is ["1"], what the two commands give, whether the two files
    exist and what the summary decodes to: other variables, commands and
    files change nothing of what is printed and done. *)
Theorem run_reads_only (w w' : world) :
  skip_requested w' = skip_requested w →
  run w' test_command = run w test_command →
  run w' upload_command = run w upload_command →
  path_exists w' summary_path = path_exists w summary_path →
  path_exists w' lcov_path = path_exists w lcov_path →
  load w' summary_path = load w summary_path →
  main w' = main w.
Proof.
  intros Hs Ht Hu Hp Hl Hd.
  unfold main, skip_check, run_tests, coverage_gate, upload_coverage,
    subprocess_run, os_path_exists.
  by rewrite Hs, Ht, Hu, Hl, (read_coverage_ext w w').
Qed.

Lemma run_reads_only_witness :
  environ Examples.busy_world ≠ environ Examples.passing_world
  ∧ main Examples.busy_world = main Examples.passing_world.
Proof.
  split.
  - intros H.
    assert (H' : environ Examples.busy_world !! "CI"
                 = environ Examples.passing_world !! "CI") by (by rewrite H).
    vm_compute in H'. discriminate.
  - apply (run_reads_only Examples.passing_world Examples.busy_world);
      reflexivity.
Defined.

(** * What a summary must hold for the run to pass *)

Lemma lt_false_iff (x : num) (t : Z) : lt x t = false ↔ ¬ below x t.
Proof. rewrite <- lt_below. by destruct (lt x t). Qed.

Lemma parse_summary_extracted (w : world) (data total pl ps pf pb : value) :
  load w summary_path = Ok data →
  get data "total" (VDict []) = Ok total →
  pct_of total "lines" = Ok pl →
  pct_of total "statements" = Ok ps →
  pct_of total "functions" = Ok pf →
  pct_of total "branches" = Ok pb →
  snd (parse_summary w) =
    of_result
      (l ← safe_float pl default_float;
       s ← safe_float ps default_float;
       f ← safe_float pf default_float;
       b ← safe_float pb default_float;
       mret (Float l, Float s, Float f, Float b)).
Proof.
  unfold pct_of. intros Hd Ht Hl Hs Hf Hb.
  unfold parse_summary, json_load_open. rewrite Hd. cbn.
  rewrite Ht. cbn. rewrite Hl. cbn. rewrite Hs. cbn. rewrite Hf. cbn.
  rewrite Hb. cbn.
  destruct (safe_float pl default_float); cbn; [|done].
  destruct (safe_float ps default_float); cbn; [|done].
  destruct (safe_float pf default_float); cbn; [|done].
  by destruct (safe_float pb default_float).
Qed.

(** When the body of the [try] returns, every step of it has succeeded. *)
Lemma parse_summary_returned (w : world) (m : num * num * num * num) :
  snd (parse_summary w) = Ret m →
  ∃ data total pl ps pf pb l s f b,
    load w summary_path = Ok data
    ∧ get data "total" (VDict []) = Ok total
    ∧ pct_of total "lines" = Ok pl
    ∧ pct_of total "statements" = Ok ps
    ∧ pct_of total "functions" = Ok pf
    ∧ pct_of total "branches" = Ok pb
    ∧ safe_float pl default_float = Ok l
    ∧ safe_float ps default_float = Ok s
    ∧ safe_float pf default_float = Ok f
    ∧ safe_float pb default_float = Ok b
    ∧ m = (Float l, Float s, Float f, Float b).
Proof.
  unfold parse_summary, json_load_open, pct_of.
  destruct (load w summary_path) as [data|] eqn:?; cbn; [|done].
  destruct (get data "total" (VDict [])) as [total|] eqn:?; cbn; [|done].
  destruct (get total "lines" (VDict []) ≫= _) as [pl|] eqn:?; cbn; [|done].
  destruct (get total "statements" (VDict []) ≫= _) as [ps|] eqn:?; cbn; [|done].
  destruct (get total "functions" (VDict []) ≫= _) as [pf|] eqn:?; cbn; [|done].
  destruct (get total "branches" (VDict []) ≫= _) as [pb|] eqn:?; cbn; [|done].
  destruct (safe_float pl default_float) as [l|] eqn:Hl; cbn; [|done].
  destruct (safe_float ps default_float) as [s|] eqn:Hs; cbn; [|done].
  destruct (safe_float pf default_float) as [f|] eqn:Hf; cbn; [|done].
  destruct (safe_float pb default_float) as [b|] eqn:Hb; cbn; [|done].
  intros [= <-]. by exists data, total, pl, ps, pf, pb, l, s, f, b.
Qed.

Lemma zeros_not_met : thresholds_met all_zero = false.
Proof. reflexivity. Qed.

(** X10. A run that is not bypassed exits with 0 exactly when the test
    command returned 0, the summary exists and decodes, the value under
    [total] and the four [pct] lookups succeed, and each [pct] is coerced to
    a float that is not strictly below its threshold. *)
Theorem passes_iff (w : world) :
  skip_requested w = false →
  exit_code w = 0%Z
  ↔ run w test_command = Ok 0%Z
    ∧ path_exists w summary_path = true
    ∧ ∃ data total pl ps pf pb l s f b,
        load w summary_path = Ok data
        ∧ get data "total" (VDict []) = Ok total
        ∧ (pct_of total "lines" = Ok pl
           ∧ safe_float pl default_float = Ok l
           ∧ ¬ below (Float l) LINES_THRESHOLD)
        ∧ (pct_of total "statements" = Ok ps
           ∧ safe_float ps default_float = Ok s
           ∧ ¬ below (Float s) STATEMENTS_THRESHOLD)
        ∧ (pct_of total "functions" = Ok pf
           ∧ safe_float pf default_float = Ok f
           ∧ ¬ below (Float f) FUNCTIONS_THRESHOLD)
        ∧ (pct_of total "branches" = Ok pb
           ∧ safe_float pb default_float = Ok b
           ∧ ¬ below (Float b) BRANCHES_THRESHOLD).
Proof.
  intros Hs. unfold exit_code. rewrite main_exit_status, Hs.
  cbn [exit_status]. split.
  - destruct (run w test_command) as [[|?|?]|?] eqn:Hr; try done.
    destruct (thresholds_met (metrics w)) eqn:Hm; [intros _|done].
    split; [done|]. unfold metrics in Hm.
    destruct (path_exists w summary_path) eqn:Hp;
      [|by rewrite read_coverage_absent in Hm].
    split; [done|].
    destruct (parse_summary_shape w) as [_ [[e He]|(l & s & f & b & Hb)]].
    { by rewrite (read_coverage_raised w e) in Hm. }
    rewrite (read_coverage_parsed w _ Hp Hb) in Hm.
    apply parse_summary_returned in Hb
      as (data & total & pl & ps & pf & pb & l' & s' & f' & b'
          & ? & ? & ? & ? & ? & ? & ? & ? & ? & ? & [= <- <- <- <-]).
    cbn [snd thresholds_met] in Hm.
    rewrite !andb_true_iff, !negb_true_iff, !lt_false_iff in Hm.
    destruct Hm as [[[? ?] ?] ?].
    by exists data, total, pl, ps, pf, pb, l, s, f, b.
  - intros (Hr & Hp & data & total & pl & ps & pf & pb & l & s & f & b
            & Hd & Ht & (Hl & Hl' & Hl'') & (Hs1 & Hs' & Hs'')
            & (Hf & Hf' & Hf'') & (Hb & Hb' & Hb'')).
    rewrite Hr. unfold metrics.
    rewrite (read_coverage_parsed w (Float l, Float s, Float f, Float b) Hp).
    + cbn [snd thresholds_met].
      apply lt_false_iff in Hl'', Hs'', Hf'', Hb''.
      by rewrite Hl'', Hs'', Hf'', Hb''.
    + rewrite (parse_summary_extracted w data total pl ps pf pb) by done.
      by rewrite Hl', Hs', Hf', Hb'.
Qed.

Lemma passes_iff_witness :
  exit_code Examples.passing_world = 0%Z
  ↔ run Examples.passing_world test_command = Ok 0%Z
    ∧ path_exists Examples.passing_world summary_path = true
    ∧ ∃ data total pl ps pf pb l s f b,
        load Examples.passing_world summary_path = Ok data
        ∧ get data "total" (VDict []) = Ok total
        ∧ (pct_of total "lines" = Ok pl
           ∧ safe_float pl default_float = Ok l
           ∧ ¬ below (Float l) LINES_THRESHOLD)
        ∧ (pct_of total "statements" = Ok ps
           ∧ safe_float ps default_float = Ok s
           ∧ ¬ below (Float s) STATEMENTS_THRESHOLD)
        ∧ (pct_of total "functions" = Ok pf
           ∧ safe_float pf default_float = Ok f
           ∧ ¬ below (Float f) FUNCTIONS_THRESHOLD)
        ∧ (pct_of total "branches" = Ok pb
           ∧ safe_float pb default_float = Ok b
           ∧ ¬ below (Float b) BRANCHES_THRESHOLD).
Proof. apply (passes_iff Examples.passing_world). reflexivity. Defined.

Lemma exit_code_not_met (w : world) :
  skip_requested w = false →
  thresholds_met (metrics w) = false →
  exit_code w = 1%Z.
Proof.
  intros Hs Hm. unfold exit_code. rewrite main_exit_status, Hs, Hm.
  by destruct (run w test_command) as [[|?|?]|?].
Qed.

(** X11. A metric whose [pct] is coerced to 0.0, because it is missing,
    [null], ["Unknown"], not a number, or a true zero, makes a run that is
    not bypassed exit with 1, whatever the other three metrics hold. *)
Theorem defaulted_metric_fails (w : world) (data total p : value)
    (metric : string) :
  skip_requested w = false →
  load w summary_path = Ok data →
  get data "total" (VDict []) = Ok total →
  metric ∈ ["lines"; "statements"; "functions"; "branches"] →
  pct_of total metric = Ok p →
  safe_float p default_float = Ok default_float →
  exit_code w = 1%Z.
Proof.
  intros Hs Hd Ht Hin Hp Hz. apply exit_code_not_met; [done|].
  unfold metrics.
  destruct (path_exists w summary_path) eqn:He;
    [|by rewrite read_coverage_absent].
  destruct (parse_summary_shape w) as [_ [[e Hr]|(l & s & f & b & Hr)]].
  { by rewrite (read_coverage_raised w e). }
  rewrite (read_coverage_parsed w _ He Hr). cbn [snd thresholds_met].
  apply parse_summary_returned in Hr
    as (data' & total' & pl & ps & pf & pb & l' & s' & f' & b'
        & Hd' & Ht' & Hl & Hs' & Hf & Hb & Hl' & Hs'' & Hf' & Hb'
        & [= <- <- <- <-]).
  rewrite Hd in Hd'. injection Hd' as <-.
  rewrite Ht in Ht'. injection Ht' as <-.
  repeat (apply elem_of_cons in Hin as [->|Hin]);
    [..|by apply elem_of_nil in Hin].
  - rewrite Hp in Hl. injection Hl as <-.
    rewrite Hz in Hl'. by injection Hl' as <-.
  - rewrite Hp in Hs'. injection Hs' as <-.
    rewrite Hz in Hs''. injection Hs'' as <-.
    apply andb_false_iff. left. apply andb_false_iff. left.
    apply andb_false_iff. by right.
  - rewrite Hp in Hf. injection Hf as <-.
    rewrite Hz in Hf'. injection Hf' as <-.
    apply andb_false_iff. left. apply andb_false_iff. by right.
  - rewrite Hp in Hb. injection Hb as <-.
    rewrite Hz in Hb'. injection Hb' as <-.
    apply andb_false_iff. by right.
Qed.

Lemma defaulted_metric_fails_witness :
  pct_of (VDict [("lines", VDict [("pct", VInt 80)]); ("statements", VInt 5)])
    "branches" = Ok VNone
  ∧ exit_code Examples.empty_summary_world = 1%Z.
Proof.
  split; [reflexivity|].
  apply (defaulted_metric_fails Examples.empty_summary_world
           (VDict []) (VDict []) VNone "branches").
  - reflexivity.
  - reflexivity.
  - reflexivity.
  - do 3 apply list_elem_of_further. apply list_elem_of_here.
  - reflexivity.
  - reflexivity.
Defined.

(** X12. A summary that decodes to an object without the key [total] is
    read without any warning: the four metrics are the float 0.0, not the
    [int] 0 of the two fallback branches, and a run that is not bypassed
    exits with 1. *)
Theorem summary_without_total (w : world) (items : list (string * value)) :
  skip_requested w = false →
  path_exists w summary_path = true →
  load w summary_path = Ok (VDict items) →
  assoc "total" items = None →
  read_coverage w =
    ([EExists summary_path; EOpen summary_path],
     Ret (Float (S754_zero false), Float (S754_zero false),
          Float (S754_zero false), Float (S754_zero false)))
  ∧ exit_code w = 1%Z.
Proof.
  intros Hs He Hd Ht.
  assert (Hr : read_coverage w =
                 ([EExists summary_path; EOpen summary_path],
                  Ret (Float (S754_zero false), Float (S754_zero false),
                       Float (S754_zero false), Float (S754_zero false)))).
  { apply read_coverage_parsed; [done|].
    rewrite (parse_summary_extracted w (VDict items) (VDict [])
               VNone VNone VNone VNone); try done.
    simpl. by rewrite Ht. }
  split; [done|]. apply exit_code_not_met; [done|].
  unfold metrics. by rewrite Hr.
Qed.

Lemma summary_without_total_witness :
  metrics Examples.empty_summary_world
  = (Float (S754_zero false), Float (S754_zero false),
     Float (S754_zero false), Float (S754_zero false))
  ∧ exit_code Examples.empty_summary_world = 1%Z.
Proof.
  split; [reflexivity|].
  refine (proj2 (summary_without_total Examples.empty_summary_world []
                   _ _ _ _)); reflexivity.
Defined.

(** * Integer percentages *)

Lemma lt_of_value (f : float) (q : Q) (n t : Z) :
  to_Q f = Some q → (q == inject_Z n)%Q → lt (Float f) t = (n <? t)%Z.
Proof.
  intros Hq Hn. apply eq_true_iff_eq.
  rewrite lt_below, Z.ltb_lt, Zlt_Qlt, <- Hn.
  destruct f as [s|s| |s m e]; simpl in *; try done;
    injection Hq as <-;
    (split; [by intros (q' & [= <-] & ?) | intros ?; by eexists]).
Qed.

Lemma percentage_coerced (n : Z) :
  (0 ≤ n ≤ 100)%Z →
  ∃ f, safe_float (VInt n) default_float = Ok f
       ∧ ∀ t, lt (Float f) t = (n <? t)%Z.
Proof.
  intros Hn.
  assert (Hk : ∃ k : nat, n = Z.of_nat k ∧ (k ≤ 100)%nat)
    by (exists (Z.to_nat n); lia).
  destruct Hk as (k & -> & Hk).
  do 101 (destruct k as [|k];
          [eexists; split; [reflexivity|]; intros t;
           eapply lt_of_value; [reflexivity | by vm_compute]|]).
  lia.
Qed.

(** X13. When the four [pct] of the summary, whatever else it holds, are
    integers from 0 to 100, a run that is not bypassed and whose tests
    returned 0 exits with 0 exactly when lines and statements are at least
    70, functions at least 65 and branches at least 60. *)
Theorem integer_percentages_decide (w : world) (data total : value)
    (nl ns nf nb : Z) :
  skip_requested w = false →
  run w test_command = Ok 0%Z →
  path_exists w summary_path = true →
  load w summary_path = Ok data →
  get data "total" (VDict []) = Ok total →
  pct_of total "lines" = Ok (VInt nl) →
  pct_of total "statements" = Ok (VInt ns) →
  pct_of total "functions" = Ok (VInt nf) →
  pct_of total "branches" = Ok (VInt nb) →
  (0 ≤ nl ≤ 100)%Z → (0 ≤ ns ≤ 100)%Z →
  (0 ≤ nf ≤ 100)%Z → (0 ≤ nb ≤ 100)%Z →
  exit_code w = 0%Z ↔ (70 ≤ nl ∧ 70 ≤ ns ∧ 65 ≤ nf ∧ 60 ≤ nb)%Z.
Proof.
  intros Hs Hr He Hd Ht Hpl Hps Hpf Hpb Hl Hs' Hf Hb.
  destruct (percentage_coerced nl Hl) as (l & Hl1 & Hl2).
  destruct (percentage_coerced ns Hs') as (s & Hs1 & Hs2).
  destruct (percentage_coerced nf Hf) as (f & Hf1 & Hf2).
  destruct (percentage_coerced nb Hb) as (b & Hb1 & Hb2).
  assert (Hm : metrics w = (Float l, Float s, Float f, Float b)).
  { unfold metrics.
    rewrite (read_coverage_parsed w (Float l, Float s, Float f, Float b) He);
      [done|].
    rewrite (parse_summary_extracted w data total
               (VInt nl) (VInt ns) (VInt nf) (VInt nb)) by done.
    by rewrite Hl1, Hs1, Hf1, Hb1. }
  unfold exit_code. rewrite main_exit_status, Hs, Hr, Hm.
  cbn [exit_status thresholds_met]. rewrite Hl2, Hs2, Hf2, Hb2.
  unfold LINES_THRESHOLD, STATEMENTS_THRESHOLD, FUNCTIONS_THRESHOLD,
    BRANCHES_THRESHOLD.
  destruct (Z.ltb_spec nl 70), (Z.ltb_spec ns 70), (Z.ltb_spec nf 65),
    (Z.ltb_spec nb 60); simpl; split; (lia || done).
Qed.

Lemma integer_percentages_decide_witness :
  exit_code Examples.passing_world = 0%Z
  ∧ exit_code Examples.low_lines_world = 1%Z
  ∧ exit_code
      (Examples.make_world ∅ (Ok 0%Z)
         (Some (Ok (Examples.summary_of (VInt 70) (VInt 70) (VInt 65)
                      (VInt 60)))) None) = 0%Z.
Proof.
  split; [|split].
  - apply (integer_percentages_decide Examples.passing_world
             Examples.passing_summary Examples.passing_total 75 71 66 61);
      [reflexivity..|lia|lia|lia|lia|lia].
  - destruct (integer_percentages_decide Examples.low_lines_world
                Examples.low_lines_summary
                (VDict [("lines", VDict [("pct", VInt 65)]);
                        ("statements", VDict [("pct", VInt 71)]);
                        ("functions", VDict [("pct", VInt 66)]);
                        ("branches", VDict [("pct", VInt 61)])])
                65 71 66 61) as [H _];
      [reflexivity..|lia|lia|lia|lia|].
    reflexivity.
  - apply (integer_percentages_decide _
             (Examples.summary_of (VInt 70) (VInt 70) (VInt 65) (VInt 60))
             (VDict [("lines", Examples.entry (VInt 70));
                     ("statements", Examples.entry (VInt 70));
                     ("functions", Examples.entry (VInt 65));
                     ("branches", Examples.entry (VInt 60))])
             70 70 65 60);
      [reflexivity..|lia|lia|lia|lia|lia].
Defined.

(** * What is printed agrees with the status *)

(** X14. In a run that got past the tests, the status is 0 exactly when
    each of the four metrics has its one report line marked as passing. *)
Theorem exit_agrees_with_marks (w : world) :
  skip_requested w = false →
  run w test_command = Ok 0%Z →
  exit_code w = 0%Z
  ↔ ∀ label threshold,
      (label, threshold) ∈ checks →
      ∃ cov,
        reports_of label (trace w)
        = [EPrint (metric_line "✅" label cov threshold)].
Proof.
  intros Hs Hr. destruct (metrics w) as [[[l s] f] b] eqn:Hm.
  destruct (reports_of_report l s f b) as (H1 & H2 & H3 & H4).
  rewrite <- (reports_of_run w "Lines" ltac:(known_label) _ Hs Hr Hm) in H1.
  rewrite <- (reports_of_run w "Statements" ltac:(known_label) _ Hs Hr Hm)
    in H2.
  rewrite <- (reports_of_run w "Functions" ltac:(known_label) _ Hs Hr Hm)
    in H3.
  rewrite <- (reports_of_run w "Branches" ltac:(known_label) _ Hs Hr Hm)
    in H4.
  unfold exit_code. rewrite main_exit_status, Hs, Hr, Hm.
  cbn [exit_status thresholds_met]. unfold verdict in *.
  assert (Hin : ∀ P : string → Z → Prop,
            (∀ label threshold, (label, threshold) ∈ checks → P label threshold)
            → P "Lines" LINES_THRESHOLD ∧ P "Statements" STATEMENTS_THRESHOLD
              ∧ P "Functions" FUNCTIONS_THRESHOLD
              ∧ P "Branches" BRANCHES_THRESHOLD).
  { intros P HP. repeat split; apply HP; unfold checks; known_label. }
  split.
  - intros H0 label threshold Hc.
    destruct (lt l LINES_THRESHOLD), (lt s STATEMENTS_THRESHOLD),
      (lt f FUNCTIONS_THRESHOLD), (lt b BRANCHES_THRESHOLD); try done.
    unfold checks in Hc.
    repeat (apply elem_of_cons in Hc as [[= -> ->]|Hc]);
      [by eexists..|by apply elem_of_nil in Hc].
  - intros H. apply Hin in H as ((c1 & E1) & (c2 & E2) & (c3 & E3) & (c4 & E4)).
    rewrite H1 in E1. rewrite H2 in E2. rewrite H3 in E3. rewrite H4 in E4.
    destruct (lt l LINES_THRESHOLD); [discriminate E1|].
    destruct (lt s STATEMENTS_THRESHOLD); [discriminate E2|].
    destruct (lt f FUNCTIONS_THRESHOLD); [discriminate E3|].
    destruct (lt b BRANCHES_THRESHOLD); [discriminate E4|].
    reflexivity.
Qed.

Lemma exit_agrees_with_marks_witness :
  exit_code Examples.low_lines_world = 1%Z
  ∧ ¬ ∃ cov,
        reports_of "Lines" (trace Examples.low_lines_world)
        = [EPrint (metric_line "✅" "Lines" cov LINES_THRESHOLD)].
Proof.
  split; [reflexivity|]. intros Hex.
  assert (H0 : exit_code Examples.low_lines_world = 0%Z).
  { apply (exit_agrees_with_marks Examples.low_lines_world);
      [reflexivity|reflexivity|].
    intros label threshold Hc. exfalso.
    destruct Hex as [cov E]. vm_compute in E. discriminate E. }
  vm_compute in H0. discriminate H0.
Defined.

(** X15. The last line a run prints tells how it ended: the notice after a
    bypass, the error with its exception when the test command could not be
    launched, the success line when the status is 0, and in every other
    case the hint at [SKIP_PRE_PUSH=1]. *)
Theorem last_line_tells_outcome (w : world) :
  last (trace w) =
    Some (EPrint
      (if skip_requested w
       then [Text "🧊 Skipping ICE-WEBAPP pre-push quality gates (SKIP_HOOKS=1 or SKIP_PRE_PUSH=1)"]
       else match run w test_command with
            | Err e => [Text "❌ Error running tests: "; Exc e]
            | Ok c =>
                if (c =? 0)%Z && thresholds_met (metrics w)
                then [Text "🧊 Pre-push quality gates passed!"]
                else [Text "   Or set environment variable: SKIP_PRE_PUSH=1 git push"]
            end)).
Proof.
  destruct (skip_requested w) eqn:Hs.
  { unfold trace. by rewrite main_skipped. }
  destruct (run w test_command) as [c|e] eqn:Hr.
  - destruct (Z.eqb_spec c 0) as [->|Hc].
    + rewrite trace_passed by done. rewrite !app_assoc, last_app.
      by destruct (thresholds_met (metrics w)).
    + unfold trace. by rewrite (main_tests_failed w c).
  - unfold trace. by rewrite (main_tests_not_launched w e).
Qed.

(** X16. When the test command cannot be launched, the run prints the
    error with the exception and nothing after it: neither of the two ways
    around the hook is named, and the status is 1. *)
Theorem launch_failure_names_no_way_around (w : world) (e : exn) :
  skip_requested w = false →
  run w test_command = Err e →
  main w =
    (started ++ [EPrint [Text "❌ Error running tests: "; Exc e]], Exit 1%Z)
  ∧ ¬ mentions "--no-verify" (trace w)
  ∧ ¬ mentions "SKIP_PRE_PUSH" (trace w).
Proof.
  intros Hs Hr. split; [by apply main_tests_not_launched|].
  unfold trace, mentions. rewrite (main_tests_not_launched w e) by done.
  split; intros (line & s & Hin & Hs' & Hc); simpl in Hin;
    repeat (apply elem_of_cons in Hin as [Hin|Hin]);
    try (by apply elem_of_nil in Hin); try discriminate Hin;
    injection Hin as ->;
    repeat (apply elem_of_cons in Hs' as [Hs'|Hs']);
    try (by apply elem_of_nil in Hs'); try discriminate Hs';
    injection Hs' as ->; vm_compute in Hc; discriminate Hc.
Qed.

Lemma launch_failure_names_no_way_around_witness :
  snd (main Examples.no_pnpm_world) = Exit 1%Z
  ∧ ¬ mentions "SKIP_PRE_PUSH" (trace Examples.no_pnpm_world).
Proof.
  pose proof (launch_failure_names_no_way_around Examples.no_pnpm_world
                (OtherError "FileNotFoundError" "pnpm")) as H.
  destruct H as (H1 & _ & H2).
  - reflexivity.
  - reflexivity.
  - split; [by rewrite H1 | exact H2].
Defined.

(** X17. A [pct] that is already a float is compared as it is: when the
    four [pct] of the summary, whatever else it holds, are floats, the run
    that got past the tests exits with 0 exactly when none of them is
    strictly below its threshold. *)
Theorem float_percentages_decide (w : world) (data total : value)
    (l s f b : float) :
  skip_requested w = false →
  run w test_command = Ok 0%Z →
  path_exists w summary_path = true →
  load w summary_path = Ok data →
  get data "total" (VDict []) = Ok total →
  pct_of total "lines" = Ok (VFloat l) →
  pct_of total "statements" = Ok (VFloat s) →
  pct_of total "functions" = Ok (VFloat f) →
  pct_of total "branches" = Ok (VFloat b) →
  metrics w = (Float l, Float s, Float f, Float b)
  ∧ (exit_code w = 0%Z
     ↔ ¬ below (Float l) LINES_THRESHOLD
       ∧ ¬ below (Float s) STATEMENTS_THRESHOLD
       ∧ ¬ below (Float f) FUNCTIONS_THRESHOLD
       ∧ ¬ below (Float b) BRANCHES_THRESHOLD).
Proof.
  intros Hs Hr He Hd Ht Hpl Hps Hpf Hpb.
  assert (Hm : metrics w = (Float l, Float s, Float f, Float b)).
  { unfold metrics.
    rewrite (read_coverage_parsed w (Float l, Float s, Float f, Float b) He);
      [done|].
    by rewrite (parse_summary_extracted w data total
                  (VFloat l) (VFloat s) (VFloat f) (VFloat b)). }
  split; [done|].
  unfold exit_code. rewrite main_exit_status, Hs, Hr, Hm.
  cbn [exit_status thresholds_met]. rewrite <- !lt_false_iff.
  destruct (lt (Float l) LINES_THRESHOLD),
    (lt (Float s) STATEMENTS_THRESHOLD),
    (lt (Float f) FUNCTIONS_THRESHOLD),
    (lt (Float b) BRANCHES_THRESHOLD); simpl; split; try done;
    by intros (? & ? & ? & ?).
Qed.

Lemma float_percentages_decide_witness :
  metrics Examples.exact_world
  = (Float Examples.seventy, Float Examples.seventy,
     Float Examples.seventy, Float Examples.seventy)
  ∧ exit_code Examples.exact_world = 0%Z.
Proof.
  pose proof (float_percentages_decide Examples.exact_world
                Examples.exact_summary Examples.exact_total
                Examples.seventy Examples.seventy Examples.seventy
                Examples.seventy) as H.
  destruct H as [Hm [_ H0]]; try reflexivity.
  split; [exact Hm|]. apply H0.
  rewrite <- !lt_false_iff. repeat split; reflexivity.
Defined.

(** * The exit status, by the numbers *)






